(** * plane_seg_ri: the robot interface of the plane segmentation node

    A shallow embedding of [plane_seg_ros/src/plane_seg_ri.cpp].

    Number model.  The file computes with C++ [float] and [double] in two
    very different ways, and the embedding follows that split:

    - the colour table [colors_] and the channels derived from it are closed
      constant expressions; they are embedded with Rocq's primitive binary64
      floats, so every channel is evaluated exactly as the machine does;
    - the pose and frame computations ([quat_to_euler],
      [convertRobotPoseToSensorLookDir], the rotation built in
      [processCloud]) are formulas over arbitrary inputs; they are embedded
      over [scalar], exact real arithmetic extended with a [NaN] value, so
      rounding, overflow and underflow are abstracted and only domain errors
      are tracked;
    - the rotation built in [processCloud] is embedded a second time in the
      binary32 arithmetic of [Eigen::Vector3f] ([look_rotation_binary32]),
      so that it can be evaluated where a squared norm overflows or
      underflows.

    Calls into Eigen, libm, PCL and tf are embedded by small models of the
    library routines, each marked as such. *)

From Stdlib Require Import ZArith List Bool Lia String Ascii.
From Stdlib Require Import Floats Reals Lra.
From Stdlib Require DecimalString DecimalZ DecimalPos Uint63.
Import ListNotations.

Set Implicit Arguments.
Set Warnings "-inexact-float".

(** ** Fallible steps: an out-of-range [operator[]] is undefined behaviour;
    the embedding reports it as [None]. *)

Definition bind {A B : Type} (o : option A) (k : A -> option B) : option B :=
  match o with
  | Some a => k a
  | None => None
  end.

Notation "'do' x <- e ; k" := (bind e (fun x => k))
  (at level 10, x name, e at level 100, k at level 200).

(** A [for] loop threading a state through a fallible body. *)
Fixpoint for_each {A S : Type} (body : A -> S -> option S) (l : list A) (s : S)
  : option S :=
  match l with
  | [] => Some s
  | a :: l' => do s' <- body a s; for_each body l' s'
  end.

(** [size_t] is a 64-bit unsigned integer: a subtraction that borrows
    wraps around. *)
Definition size_t_modulus : Z := 2 ^ 64.

Definition size_t_sub (a b : Z) : Z :=
  (if a <? b then a - b + size_t_modulus else a - b)%Z.

Definition size {A : Type} (v : list A) : Z := Z.of_nat (List.length v).

(** [v[i]] on a [std::vector]. *)
Definition at_ {A : Type} (v : list A) (i : Z) : option A :=
  if ((0 <=? i) && (i <? size v))%Z then nth_error v (Z.to_nat i) else None.

(** ** Scalars of the pose and frame computations *)

Inductive scalar : Type :=
| Num (r : R)
| NaN.

Module Scalar.

Definition lift1 (f : R -> R) (a : scalar) : scalar :=
  match a with
  | Num x => Num (f x)
  | NaN => NaN
  end.

Definition lift2 (f : R -> R -> R) (a b : scalar) : scalar :=
  match a, b with
  | Num x, Num y => Num (f x y)
  | _, _ => NaN
  end.

Definition add := lift2 Rplus.
Definition sub := lift2 Rminus.
Definition mul := lift2 Rmult.
Definition neg := lift1 Ropp.

(** The model has no infinities: a division by zero is mapped to [NaN]. *)
Definition div (a b : scalar) : scalar :=
  match a, b with
  | Num x, Num y => if Req_dec_T y 0 then NaN else Num (x / y)
  | _, _ => NaN
  end.

(** [a > b]; every comparison with [NaN] is false. *)
Definition gtb (a b : scalar) : bool :=
  match a, b with
  | Num x, Num y => if Rlt_dec y x then true else false
  | _, _ => false
  end.

(** libm [sqrt]: a domain error below zero. *)
Definition sqrt (a : scalar) : scalar :=
  match a with
  | Num x => if Rlt_dec x 0 then NaN else Num (R_sqrt.sqrt x)
  | NaN => NaN
  end.

Definition cos := lift1 Rtrigo_def.cos.
Definition sin := lift1 Rtrigo_def.sin.

(** libm [asin]: defined on [-1, 1] only, [NaN] outside. *)
Definition asin (a : scalar) : scalar :=
  match a with
  | Num x =>
      if Rle_dec (-1) x
      then if Rle_dec x 1 then Num (Ratan.asin x) else NaN
      else NaN
  | NaN => NaN
  end.

(** libm [atan2 y x] on reals: the angle of the point [(x, y)]. *)
Definition atan2R (y x : R) : R :=
  if Rlt_dec 0 x then atan (y / x)
  else if Rlt_dec x 0
       then if Rle_dec 0 y then atan (y / x) + PI else atan (y / x) - PI
       else if Rlt_dec 0 y then PI / 2
            else if Rlt_dec y 0 then - PI / 2 else 0.

Definition atan2 := lift2 atan2R.

End Scalar.

Declare Scope scalar_scope.
Delimit Scope scalar_scope with scalar.
Bind Scope scalar_scope with scalar.
Infix "+" := Scalar.add : scalar_scope.
Infix "-" := Scalar.sub : scalar_scope.
Infix "*" := Scalar.mul : scalar_scope.
Infix "/" := Scalar.div : scalar_scope.
Notation "- a" := (Scalar.neg a) : scalar_scope.

(** ** Eigen: the vectors, matrices and transforms the node uses *)

Module Eigen.

Local Open Scope scalar_scope.

Record Vector3 : Type := vec3 { vx : scalar; vy : scalar; vz : scalar }.

(** A 3x3 matrix, held by columns as [rotation.col(k) = ...] fills it. *)
Record Matrix3 : Type := mat3 { col0 : Vector3; col1 : Vector3; col2 : Vector3 }.

Record Quaternion : Type :=
  quat { qw : scalar; qx : scalar; qy : scalar; qz : scalar }.

Record Isometry3 : Type :=
  isometry { linear : Matrix3; translation : Vector3 }.

Definition Zero : Vector3 := vec3 (Num 0) (Num 0) (Num 0).
Definition UnitX : Vector3 := vec3 (Num 1) (Num 0) (Num 0).
Definition UnitY : Vector3 := vec3 (Num 0) (Num 1) (Num 0).
Definition UnitZ : Vector3 := vec3 (Num 0) (Num 0) (Num 1).

Definition Matrix3_Identity : Matrix3 := mat3 UnitX UnitY UnitZ.

Definition Isometry3_Identity : Isometry3 := isometry Matrix3_Identity Zero.

Definition dot (a b : Vector3) : scalar :=
  vx a * vx b + vy a * vy b + vz a * vz b.

Definition cross (a b : Vector3) : Vector3 :=
  vec3 (vy a * vz b - vz a * vy b)
       (vz a * vx b - vx a * vz b)
       (vx a * vy b - vy a * vx b).

Definition squaredNorm (n : Vector3) : scalar := dot n n.

Definition norm (n : Vector3) : scalar := Scalar.sqrt (squaredNorm n).

Definition scale_down (n : Vector3) (s : scalar) : Vector3 :=
  vec3 (vx n / s) (vy n / s) (vz n / s).

(** [MatrixBase::normalized()] (Eigen 3.3 and later): a vector whose
    squared norm is not positive is returned as it is. *)
Definition normalized (n : Vector3) : Vector3 :=
  let z := squaredNorm n in
  if Scalar.gtb z (Num 0) then scale_down n (Scalar.sqrt z) else n.

(** [m(i, j)]: row [i] of column [j]. *)
Definition component (v : Vector3) (i : nat) : scalar :=
  match i with
  | O => vx v
  | S O => vy v
  | _ => vz v
  end.

Definition column (m : Matrix3) (j : nat) : Vector3 :=
  match j with
  | O => col0 m
  | S O => col1 m
  | _ => col2 m
  end.

Definition coeff (m : Matrix3) (i j : nat) : scalar := component (column m j) i.

Definition trace (m : Matrix3) : scalar := coeff m 0 0 + coeff m 1 1 + coeff m 2 2.

(** [q.coeffs().coeffRef(i) = v]: the coefficients are stored x, y, z, w. *)
Definition set_coeff (q : Quaternion) (i : nat) (v : scalar) : Quaternion :=
  match i with
  | O => quat (qw q) v (qy q) (qz q)
  | S O => quat (qw q) (qx q) v (qz q)
  | S (S O) => quat (qw q) (qx q) (qy q) v
  | _ => quat v (qx q) (qy q) (qz q)
  end.

(** [Quaternion(const Matrix3&)]: Eigen's conversion of a rotation matrix,
    branching on the trace and then on the largest diagonal entry. *)
Definition Quaternion_of_matrix (m : Matrix3) : Quaternion :=
  let t := trace m in
  if Scalar.gtb t (Num 0) then
    let t := Scalar.sqrt (t + Num 1) in
    let w := Num (1 / 2) * t in
    let t := Num (1 / 2) / t in
    quat w
         ((coeff m 2 1 - coeff m 1 2) * t)
         ((coeff m 0 2 - coeff m 2 0) * t)
         ((coeff m 1 0 - coeff m 0 1) * t)
  else
    let i := if Scalar.gtb (coeff m 1 1) (coeff m 0 0) then 1%nat else 0%nat in
    let i := if Scalar.gtb (coeff m 2 2) (coeff m i i) then 2%nat else i in
    let j := ((i + 1) mod 3)%nat in
    let k := ((j + 1) mod 3)%nat in
    let t := Scalar.sqrt (coeff m i i - coeff m j j - coeff m k k + Num 1) in
    let q := set_coeff (quat NaN NaN NaN NaN) i (Num (1 / 2) * t) in
    let t := Num (1 / 2) / t in
    let q := set_coeff q 3 ((coeff m k j - coeff m j k) * t) in
    let q := set_coeff q j ((coeff m j i + coeff m i j) * t) in
    set_coeff q k ((coeff m k i + coeff m i k) * t).

(** [Isometry3d::rotation()]: for an isometry, the linear part. *)
Definition rotation (t : Isometry3) : Matrix3 := linear t.

End Eigen.

Import Eigen.

(** ** Orientation: from the robot pose to the sensor look direction *)

Record EulerAngles : Type :=
  euler { roll : scalar; pitch : scalar; yaw : scalar }.

(** The argument handed to [asin] in [quat_to_euler]. *)
Definition pitch_argument (q : Quaternion) : scalar :=
  let q0 := qw q in
  let q1 := qx q in
  let q2 := qy q in
  let q3 := qz q in
  (Num 2 * (q0 * q2 - q3 * q1))%scalar.

Definition quat_to_euler (q : Quaternion) : EulerAngles :=
  let q0 := qw q in
  let q1 := qx q in
  let q2 := qy q in
  let q3 := qz q in
  (euler
     (Scalar.atan2 (Num 2 * (q0 * q1 + q2 * q3)) (Num 1 - Num 2 * (q1 * q1 + q2 * q2)))
     (Scalar.asin (pitch_argument q))
     (Scalar.atan2 (Num 2 * (q0 * q3 + q1 * q2)) (Num 1 - Num 2 * (q2 * q2 + q3 * q3))))%scalar.

Definition convertRobotPoseToSensorLookDir (robot_pose : Isometry3) : Vector3 :=
  let quat := Quaternion_of_matrix (rotation robot_pose) in
  let rpy := quat_to_euler quat in
  let yaw := yaw rpy in
  let pitch := (- pitch rpy)%scalar in
  let xDir := (Scalar.cos yaw * Scalar.cos pitch)%scalar in
  let yDir := (Scalar.sin yaw * Scalar.cos pitch)%scalar in
  let zDir := Scalar.sin pitch in
  vec3 xDir yDir zDir.

(** The same [asin] argument read in binary64, for evaluation on concrete
    doubles: [2.0 * (q0 * q2 - q3 * q1)]. *)
Definition pitch_argument_binary64 (q0 q1 q2 q3 : float) : float :=
  (2 * (q0 * q2 - q3 * q1))%float.

(** ** The look frame built in [processCloud] *)

(** The frame over [scalar]: the formulas of the code read in exact
    arithmetic.  [look_rotation_binary32] below is the same code in the
    arithmetic it runs in. *)
Definition look_rotation (lookDir : Vector3) : Matrix3 :=
  let rz := lookDir in
  let rx := cross rz UnitZ in
  let ry := cross rz rx in
  mat3 (normalized rx) (normalized ry) (normalized rz).

Definition look_pose (origin lookDir : Vector3) : Isometry3 :=
  isometry (look_rotation lookDir) origin.

(** ** The look frame in binary32

    [Eigen::Vector3f] computes in C++ [float]: binary32, 24 bits of
    precision, round to nearest even, with signed zeros, infinities and
    NaN. *)

Module Float32.

Definition prec : Z := 24.
Definition emax : Z := 128.

Definition add (x y : spec_float) : spec_float := SFadd prec emax x y.
Definition sub (x y : spec_float) : spec_float := SFsub prec emax x y.
Definition mul (x y : spec_float) : spec_float := SFmul prec emax x y.
Definition div (x y : spec_float) : spec_float := SFdiv prec emax x y.
Definition sqrt (x : spec_float) : spec_float := SFsqrt prec emax x.
Definition gtb (x y : spec_float) : bool := SFltb y x.

(** The [float] nearest to [m * 2 ^ e]. *)
Definition of_dyadic (m e : Z) : spec_float := binary_normalize prec emax m e false.

Definition zero : spec_float := S754_zero false.
Definition one : spec_float := of_dyadic 1 0.

Record Vector3f : Type := vec3f { fx : spec_float; fy : spec_float; fz : spec_float }.

Record Matrix3f : Type :=
  mat3f { fcol0 : Vector3f; fcol1 : Vector3f; fcol2 : Vector3f }.

Definition UnitZ : Vector3f := vec3f zero zero one.

Definition cross (a b : Vector3f) : Vector3f :=
  vec3f (sub (mul (fy a) (fz b)) (mul (fz a) (fy b)))
        (sub (mul (fz a) (fx b)) (mul (fx a) (fz b)))
        (sub (mul (fx a) (fy b)) (mul (fy a) (fx b))).

(** [squaredNorm()]: Eigen's unrolled reduction of three terms adds the
    first one to the sum of the other two. *)
Definition squaredNorm (n : Vector3f) : spec_float :=
  add (mul (fx n) (fx n)) (add (mul (fy n) (fy n)) (mul (fz n) (fz n))).

(** [MatrixBase::normalized()] (Eigen 3.3 and later). *)
Definition normalized (n : Vector3f) : Vector3f :=
  let z := squaredNorm n in
  if gtb z zero then
    vec3f (div (fx n) (sqrt z)) (div (fy n) (sqrt z)) (div (fz n) (sqrt z))
  else n.

End Float32.

Definition look_rotation_binary32 (lookDir : Float32.Vector3f) : Float32.Matrix3f :=
  let rz := lookDir in
  let rx := Float32.cross rz Float32.UnitZ in
  let ry := Float32.cross rz rx in
  Float32.mat3f (Float32.normalized rx) (Float32.normalized ry) (Float32.normalized rz).

(** ** Point and message types

    A point cloud is embedded as its [points] vector. *)

Module PointXYZ.
Record t : Type := mk { x : scalar; y : scalar; z : scalar }.
End PointXYZ.

(** [r], [g], [b] are [uint8_t]. *)
Module PointXYZRGB.
Record t : Type :=
  mk { x : scalar; y : scalar; z : scalar; r : Z; g : Z; b : Z }.
End PointXYZRGB.

(** [geometry_msgs::Point]. *)
Module Point.
Record t : Type := mk { x : scalar; y : scalar; z : scalar }.
End Point.

(** [std_msgs::ColorRGBA]: four [float] channels. *)
Module ColorRGBA.
Record t : Type := mk { r : float; g : float; b : float; a : float }.
End ColorRGBA.

Definition HullCloud : Type := list PointXYZ.t.

(** [sensor_msgs::PointCloud2]: the header fields the node sets and the
    points it carries. *)
Module PointCloud2.
Record t (P : Type) : Type :=
  mk { frame_id : string; stamp : Z * Z; points : list P }.
End PointCloud2.

(** [geometry_msgs::PoseStamped]. *)
Module PoseStamped.
Record t : Type := mk { frame_id : string; stamp : Z * Z; pose : Isometry3 }.
End PoseStamped.

Inductive MarkerType : Type := LINE_LIST | POINTS.
Inductive MarkerAction : Type := ADD.

(** [visualization_msgs::Marker], with the fields the node fills. *)
Module Marker.
Record t : Type :=
  mk { frame_id : string;
       stamp : Z * Z;
       ns : string;
       id : Z;
       type : MarkerType;
       action : MarkerAction;
       position : float * float * float;
       orientation : float * float * float * float;
       scale : float * float * float;
       color_a : float;
       points : list Point.t;
       colors : list ColorRGBA.t;
       frame_locked : bool }.

(** The two [push_back] calls that add one vertex. *)
Definition push (m : t) (c : ColorRGBA.t) (p : Point.t) : t :=
  mk (frame_id m) (stamp m) (ns m) (id m) (type m) (action m) (position m)
     (orientation m) (scale m) (color_a m)
     (points m ++ [p]) (colors m ++ [c]) (frame_locked m).

(** Several vertices at once. *)
Definition extend (m : t) (cs : list ColorRGBA.t) (ps : list Point.t) : t :=
  mk (frame_id m) (stamp m) (ns m) (id m) (type m) (action m) (position m)
     (orientation m) (scale m) (color_a m)
     (points m ++ ps) (colors m ++ cs) (frame_locked m).

Definition set_frame_locked (m : t) (v : bool) : t :=
  mk (frame_id m) (stamp m) (ns m) (id m) (type m) (action m) (position m)
     (orientation m) (scale m) (color_a m) (points m) (colors m) v.
End Marker.

(** ** Time stamps *)

(** An [int] argument received by a [uint32_t] parameter. *)
Definition to_uint32_t (n : Z) : Z := (n mod 2 ^ 32)%Z.

(** [ros::Time(uint32_t _sec, uint32_t _nsec)] called on two [int]s: the
    pair of the fields [sec] and [nsec].  The constructor normalises them,
    carrying the whole seconds of [_nsec] into [sec].  It throws when the
    seconds then leave 32 bits, which takes [secs] in -4..-1 together with
    at least one whole second in [_nsec]; exceptions are not modelled and
    the sum is kept as it is there. *)
Definition ros_Time (secs nsecs : Z) : Z * Z :=
  let _sec := to_uint32_t secs in
  let _nsec := to_uint32_t nsecs in
  (_sec + _nsec / 1000000000, _nsec mod 1000000000)%Z.

(** ** The colour table *)

(** [colors_], as the constructor fills it: 28 rows of three doubles. *)
Definition colors_ : list float :=
  [ 51 / 255.0; 160 / 255.0; 44 / 255.0;
    166 / 255.0; 206 / 255.0; 227 / 255.0;
    178 / 255.0; 223 / 255.0; 138 / 255.0;
    31 / 255.0; 120 / 255.0; 180 / 255.0;
    251 / 255.0; 154 / 255.0; 153 / 255.0;
    227 / 255.0; 26 / 255.0; 28 / 255.0;
    253 / 255.0; 191 / 255.0; 111 / 255.0;
    106 / 255.0; 61 / 255.0; 154 / 255.0;
    255 / 255.0; 127 / 255.0; 0 / 255.0;
    202 / 255.0; 178 / 255.0; 214 / 255.0;
    1.0; 0.0; 0.0;
    0.0; 1.0; 0.0;
    0.0; 0.0; 1.0;
    1.0; 1.0; 0.0;
    1.0; 0.0; 1.0;
    0.0; 1.0; 1.0;
    0.5; 1.0; 0.0;
    1.0; 0.5; 0.0;
    0.5; 0.0; 1.0;
    1.0; 0.0; 0.5;
    0.0; 0.5; 1.0;
    0.0; 1.0; 0.5;
    1.0; 0.5; 0.5;
    0.5; 1.0; 0.5;
    0.5; 0.5; 1.0;
    0.5; 0.5; 1.0;
    0.5; 1.0; 0.5;
    0.5; 0.5; 1.0 ]%float.

(** [colors_[k]]; every index the node forms is in range (see
    [color_offsets_in_range]). *)
Definition colors_at (k : Z) : float := nth (Z.to_nat k) colors_ 0%float.

(** [int nColor = i % (colors_.size() / 3)]. *)
Definition nColor (i : nat) : Z := (Z.of_nat i mod (size colors_ / 3))%Z.

(** The three doubles [r], [g], [b] computed at the top of each hull. *)
Definition hull_rgb (i : nat) : float * float * float :=
  let n := nColor i in
  let r := (colors_at (n * 3) * 255.0)%float in
  let g := (colors_at (n * 3 + 1) * 255.0)%float in
  let b := (colors_at (n * 3 + 2) * 255.0)%float in
  (r, g, b).

(** Conversion of a [double] to [uint8_t]: the fraction is dropped.  A value
    outside [0, 256) is undefined in C++; the model keeps the low byte. *)
Definition double_to_uint8 (d : float) : Z :=
  match Prim2SF d with
  | S754_finite s m e =>
      let v := Z.shiftl (Z.pos m) e in
      ((if s then - v else v) mod 256)%Z
  | _ => 0%Z
  end.

(** Conversion of a [double] to [float]: rounding to binary32 (24 bits of
    precision, exponents up to 128); the result is held as the equal
    binary64 value. *)
Definition double_to_float (d : float) : float :=
  match Prim2SF d with
  | S754_finite s m e => SF2Prim (binary_round 24 128 s m e)
  | _ => d
  end.

(** ** Hulls as one coloured cloud *)

(** [pcl::copyPointCloud] from XYZ to XYZRGB: coordinates are copied, the
    colour of a fresh point is black. *)
Definition copyPointCloud (cloud : HullCloud) : list PointXYZRGB.t :=
  map (fun p => PointXYZRGB.mk (PointXYZ.x p) (PointXYZ.y p) (PointXYZ.z p) 0 0 0)
      cloud.

(** The inner loop: each point gets the hull's three channels. *)
Definition set_rgb (r g b : float) (p : PointXYZRGB.t) : PointXYZRGB.t :=
  PointXYZRGB.mk (PointXYZRGB.x p) (PointXYZRGB.y p) (PointXYZRGB.z p)
                 (double_to_uint8 r) (double_to_uint8 g) (double_to_uint8 b).

(** One turn of the outer loop of [publishHullsAsCloud]. *)
Definition cloud_step (i : nat) (cloud : HullCloud)
           (combined_cloud : list PointXYZRGB.t) : list PointXYZRGB.t :=
  let cloud_rgb := copyPointCloud cloud in
  let '(r, g, b) := hull_rgb i in
  let cloud_rgb := map (set_rgb r g b) cloud_rgb in
  combined_cloud ++ cloud_rgb.

Fixpoint cloud_loop (i : nat) (cloud_ptrs : list HullCloud)
         (combined_cloud : list PointXYZRGB.t) : list PointXYZRGB.t :=
  match cloud_ptrs with
  | [] => combined_cloud
  | cloud :: rest => cloud_loop (S i) rest (cloud_step i cloud combined_cloud)
  end.

(** The message handed to [hull_cloud_pub_]. *)
Definition publishHullsAsCloud (cloud_ptrs : list HullCloud) (secs nsecs : Z)
  : PointCloud2.t PointXYZRGB.t :=
  let combined_cloud := cloud_loop 0 cloud_ptrs [] in
  PointCloud2.mk "odom" (ros_Time secs nsecs) combined_cloud.

(** ** Hulls as a line list *)

Definition to_Point (p : PointXYZ.t) : Point.t :=
  Point.mk (PointXYZ.x p) (PointXYZ.y p) (PointXYZ.z p).

Definition to_ColorRGBA (rgb : float * float * float) : ColorRGBA.t :=
  let '(r, g, b) := rgb in
  ColorRGBA.mk (double_to_float r) (double_to_float g) (double_to_float b) 1.0%float.

(** The body of the edge loop at index [j]: vertices [j - 1] and [j]. *)
Definition edge_step (rgb : float * float * float) (cloud : HullCloud) (j : nat)
           (marker : Marker.t) : option Marker.t :=
  do p <- at_ cloud (size_t_sub (Z.of_nat j) 1);
  let marker := Marker.push marker (to_ColorRGBA rgb) (to_Point p) in
  do p <- at_ cloud (Z.of_nat j);
  Some (Marker.push marker (to_ColorRGBA rgb) (to_Point p)).

(** One turn of the outer loop of [publishHullsAsMarkers]: the edges, then
    the start-to-end line, which is not guarded by the size of the hull. *)
Definition marker_step (i : nat) (cloud : HullCloud) (marker : Marker.t)
  : option Marker.t :=
  let rgb := hull_rgb i in
  do marker <- for_each (edge_step rgb cloud) (seq 1 (List.length cloud - 1)) marker;
  do p <- at_ cloud 0;
  let marker := Marker.push marker (to_ColorRGBA rgb) (to_Point p) in
  do p <- at_ cloud (size_t_sub (size cloud) 1);
  Some (Marker.push marker (to_ColorRGBA rgb) (to_Point p)).

Fixpoint marker_loop (i : nat) (cloud_ptrs : list HullCloud) (marker : Marker.t)
  : option Marker.t :=
  match cloud_ptrs with
  | [] => Some marker
  | cloud :: rest => do marker <- marker_step i cloud marker; marker_loop (S i) rest marker
  end.

Definition marker_header (secs nsecs : Z) : Marker.t :=
  Marker.mk "odom" (ros_Time secs nsecs) "hull lines" 0 LINE_LIST ADD
            (0, 0, 0)%float (0.0, 0.0, 0.0, 1.0)%float (0.03, 0.03, 0.03)%float
            1.0%float [] [] false.

(** The marker handed to [hull_markers_pub_]; [None] when a point read is
    out of range. *)
Definition publishHullsAsMarkers (cloud_ptrs : list HullCloud) (secs nsecs : Z)
  : option Marker.t :=
  do marker <- marker_loop 0 cloud_ptrs (marker_header secs nsecs);
  Some (Marker.set_frame_locked marker true).

(** The line list read as segments: vertices [2k] and [2k + 1]. *)
Fixpoint segments {A : Type} (vertices : list A) : list (A * A) :=
  match vertices with
  | a :: b :: rest => (a, b) :: segments rest
  | _ => []
  end.

(** ** The segmentation engine at its boundary *)

(** [pcl::PointXYZL]: a labelled point. *)
Module PointXYZL.
Record t : Type := mk { x : scalar; y : scalar; z : scalar; label : Z }.
End PointXYZL.

Definition LabeledCloud : Type := list PointXYZL.t.

(** [planeseg::BlockFitter::Block], with the members the node reads. *)
Record Block : Type :=
  mkBlock { mSize : Vector3; mPose : Isometry3; mHull : list Vector3 }.

(** [planeseg::BlockFitter::Result], with the member the node reads. *)
Record Result : Type := mkResult { mBlocks : list Block }.

(** The [BlockFitter] as [processCloud] configures it before [go()]. *)
Record BlockFitter : Type :=
  mkFitter { mOrigin : Vector3;
             mLookDir : Vector3;
             mCloud : LabeledCloud;
             mDebug : bool;
             mRemoveGround : bool;
             mMaxAngleOfPlaneSegmenter : Z }.

(** ** The node *)

(** The mutable members of [RobotInterface]. *)
Record RobotInterface : Type :=
  mkRobotInterface { last_robot_pose_ : Isometry3; result_ : Result }.

(** What the node does that is visible outside of it, in order. *)
Inductive Event : Type :=
| fitter_go (fitter : BlockFitter)
| look_pose_pub_ (msg : PoseStamped.t)
| received_cloud_pub_ (output : PointCloud2.t PointXYZL.t)
| hull_cloud_pub_ (output : PointCloud2.t PointXYZRGB.t)
| hull_markers_pub_ (marker : Marker.t).

(** The constructor: the pose starts as the identity, the result empty. *)
Definition RobotInterface_new : RobotInterface :=
  mkRobotInterface Isometry3_Identity (mkResult []).

(** [tf::poseMsgToEigen] is taken as delivering the pose. *)
Definition robotPoseCallBack (this : RobotInterface) (msg : Isometry3)
  : RobotInterface :=
  mkRobotInterface msg (result_ this).

(** The conversion loop of [publishResult]: one cloud per block hull. *)
Definition hull_cloud (block : Block) : HullCloud :=
  map (fun pt => PointXYZ.mk (vx pt) (vy pt) (vz pt)) (mHull block).

Definition publishResult (this : RobotInterface) : option (list Event) :=
  let cloud_ptrs := map hull_cloud (mBlocks (result_ this)) in
  let output := publishHullsAsCloud cloud_ptrs 0 0 in
  do marker <- publishHullsAsMarkers cloud_ptrs 0 0;
  Some [hull_cloud_pub_ output; hull_markers_pub_ marker].

Section Node.

(** [BlockFitter::go], the external engine. *)
Variable go : BlockFitter -> Result.

(** Grid maps and their conversion to a cloud ([GridMapRosConverter]). *)
Variable GridMap : Type.
Variable toPointCloud : GridMap -> LabeledCloud.

Definition processCloud (this : RobotInterface) (inCloud : LabeledCloud)
           (origin lookDir : Vector3) : option (RobotInterface * list Event) :=
  let fitter := mkFitter origin lookDir inCloud true false 10 in
  let this := mkRobotInterface (last_robot_pose_ this) (go fitter) in
  let pose := look_pose origin lookDir in
  let msg := PoseStamped.mk "odom" (ros_Time 0 0) pose in
  let output := PointCloud2.mk "odom" (ros_Time 0 0) inCloud in
  do published <- publishResult this;
  Some (this,
        [fitter_go fitter; look_pose_pub_ msg; received_cloud_pub_ output] ++ published).

Definition pointCloudCallback (this : RobotInterface) (msg : LabeledCloud)
  : option (RobotInterface * list Event) :=
  let inCloud := msg in
  let origin := translation (last_robot_pose_ this) in
  let lookDir := convertRobotPoseToSensorLookDir (last_robot_pose_ this) in
  processCloud this inCloud origin lookDir.

Definition elevationMapCallback (this : RobotInterface) (msg : GridMap)
  : option (RobotInterface * list Event) :=
  let inCloud := toPointCloud msg in
  let origin := translation (last_robot_pose_ this) in
  let lookDir := convertRobotPoseToSensorLookDir (last_robot_pose_ this) in
  processCloud this inCloud origin lookDir.

(** The messages [ros::spin] dispatches, one at a time. *)
Inductive Message : Type :=
| pose_in_odom (msg : Isometry3)
| point_cloud_in (msg : LabeledCloud)
| elevation_map (msg : GridMap).

Definition dispatch (this : RobotInterface) (m : Message)
  : option (RobotInterface * list Event) :=
  match m with
  | pose_in_odom msg => Some (robotPoseCallBack this msg, [])
  | point_cloud_in msg => pointCloudCallback this msg
  | elevation_map msg => elevationMapCallback this msg
  end.

Fixpoint spin (this : RobotInterface) (queue : list Message)
  : option (RobotInterface * list Event) :=
  match queue with
  | [] => Some (this, [])
  | m :: queue' =>
      do step <- dispatch this m;
      do rest <- spin (fst step) queue';
      Some (fst rest, snd step ++ snd rest)
  end.

End Node.


(** The fitters handed to the engine along a trace. *)
Fixpoint fitters (trace : list Event) : list BlockFitter :=
  match trace with
  | [] => []
  | fitter_go f :: rest => f :: fitters rest
  | _ :: rest => fitters rest
  end.

(** ** The text dump *)

Definition quote : string := String "034"%char EmptyString.
Definition newline : string := String "010"%char EmptyString.

(** [std::to_string] on an [int]. *)
Definition to_string (n : Z) : string :=
  DecimalString.NilZero.string_of_int (Z.to_int n).

(** [std::string uuid = "0_" + std::to_string(i + 1)]. *)
Definition uuid (i : nat) : string := ("0_" ++ to_string (Z.of_nat i + 1))%string.

Section Json.

(** The two stream formatters, [vecToStr] and [rotToStr], and
    [std::to_string] on a [float]: number formatting is not modelled. *)
Variable vecToStr : Vector3 -> string.
Variable rotToStr : Matrix3 -> string.
Variable float_to_string : scalar -> string.

Local Open Scope string_scope.

(** The text one turn of the loop appends to [json]. *)
Definition json_block (i : nat) (block : Block) : string :=
  let dimensionString := vecToStr (mSize block) in
  let positionString := vecToStr (translation (mPose block)) in
  let quaternionString := rotToStr (rotation (mPose block)) in
  let color := vec3 (Num (5 / 10)) (Num (4 / 10)) (Num (5 / 10)) in
  let colorString := vecToStr color in
  let alpha := Num 1 in
  let uuid := uuid i in
  "    " ++ quote ++ uuid ++ quote ++ ": {" ++ newline
  ++ "      " ++ quote ++ "classname" ++ quote ++ ": " ++ quote
       ++ "BoxAffordanceItem" ++ quote ++ "," ++ newline
  ++ "      " ++ quote ++ "pose" ++ quote ++ ": [[" ++ positionString ++ "], ["
       ++ quaternionString ++ "]]," ++ newline
  ++ "      " ++ quote ++ "uuid" ++ quote ++ ": " ++ quote ++ uuid ++ quote ++ ","
       ++ newline
  ++ "      " ++ quote ++ "Dimensions" ++ quote ++ ": [" ++ dimensionString ++ "],"
       ++ newline
  ++ "      " ++ quote ++ "Color" ++ quote ++ ": [" ++ colorString ++ "]," ++ newline
  ++ "      " ++ quote ++ "Alpha" ++ quote ++ ": " ++ float_to_string alpha ++ ","
       ++ newline
  ++ "      " ++ quote ++ "Name" ++ quote ++ ": " ++ quote ++ " mNamePrefix "
       ++ to_string (Z.of_nat i) ++ quote ++ newline
  ++ "    }," ++ newline.

Fixpoint json_loop (i : nat) (blocks : list Block) (json : string) : string :=
  match blocks with
  | [] => json
  | block :: rest => json_loop (S i) rest (json ++ json_block i block)
  end.

(** What [printResultAsJson] writes to [std::cout]. *)
Definition printResultAsJson (this : RobotInterface) : string :=
  json_loop 0 (mBlocks (result_ this)) "" ++ newline.

End Json.

(** ** The vocabulary of the specification *)

(** The palette: [colors_] read as rows of three. *)
Fixpoint rows (table : list float) : list (float * float * float) :=
  match table with
  | r :: g :: b :: rest => (r, g, b) :: rows rest
  | _ => []
  end.

Definition palette : list (float * float * float) := rows colors_.

(** [color(i) = palette[i mod |palette|]]. *)
Definition color (i : nat) : float * float * float :=
  nth (i mod List.length palette) palette (0, 0, 0)%float.

(** A palette entry on the 0..255 scale both outputs use. *)
Definition scaled (c : float * float * float) : float * float * float :=
  let '(r, g, b) := c in (r * 255.0, g * 255.0, b * 255.0)%float.

(** A hull point carrying a palette entry in the combined cloud. *)
Definition coloured (c : float * float * float) (p : PointXYZ.t) : PointXYZRGB.t :=
  let '(r, g, b) := scaled c in
  PointXYZRGB.mk (PointXYZ.x p) (PointXYZ.y p) (PointXYZ.z p)
                 (double_to_uint8 r) (double_to_uint8 g) (double_to_uint8 b).

(** The number of points of the hulls before hull [i]. *)
Definition offset (hulls : list HullCloud) (i : nat) : nat :=
  List.length (List.concat (firstn i hulls)).

(** The closed line loop of a boundary of [n] points: for [j] in
    [1..n-1] the segment [(boundary[j-1], boundary[j])], then the closing
    segment [(boundary[0], boundary[n-1])]. *)
Definition line_loop {A : Type} (boundary : list A) : list (A * A) :=
  match boundary with
  | [] => []
  | first :: _ =>
      let n := List.length boundary in
      let pt j := nth j boundary first in
      map (fun j => (pt (j - 1)%nat, pt j)) (seq 1 (n - 1)) ++ [(pt 0%nat, pt (n - 1)%nat)]
  end.

(** The vertices of a list of segments, as a line list holds them. *)
Definition vertices {A : Type} (segs : list (A * A)) : list A :=
  flat_map (fun s => [fst s; snd s]) segs.

(** The hulls from index [i] on, each point carrying its palette entry. *)
Fixpoint coloured_from (i : nat) (hulls : list HullCloud) : list PointXYZRGB.t :=
  match hulls with
  | [] => []
  | hull :: rest => map (coloured (color i)) hull ++ coloured_from (S i) rest
  end.

(** The vertex colours of the hulls from index [i] on: two per segment. *)
Fixpoint vertex_colours_from (i : nat) (hulls : list HullCloud) : list ColorRGBA.t :=
  match hulls with
  | [] => []
  | hull :: rest =>
      repeat (to_ColorRGBA (scaled (color i))) (2 * List.length hull)
      ++ vertex_colours_from (S i) rest
  end.

Definition nonempty {A : Type} (l : list A) : Prop := l <> [].

(** The identifier of the specification: cycle index, underscore, block
    index plus one. *)
Definition spec_identifier (cycleIndex blockIndex : nat) : string :=
  (to_string (Z.of_nat cycleIndex) ++ "_" ++ to_string (Z.of_nat blockIndex + 1))%string.

(** The tolerance of the frame properties. *)
Definition tolerance : R := (1 / 1000000)%R.

Definition orthogonal_within (eps : R) (a b : Vector3) : Prop :=
  exists d : R, dot a b = Num d /\ (Rabs d <= eps)%R.

Definition unit_within (eps : R) (a : Vector3) : Prop :=
  exists n : R, norm a = Num n /\ (Rabs (n - 1) <= eps)%R.

Definition orthonormal_within (eps : R) (m : Matrix3) : Prop :=
  orthogonal_within eps (col0 m) (col1 m)
  /\ orthogonal_within eps (col0 m) (col2 m)
  /\ orthogonal_within eps (col1 m) (col2 m)
  /\ unit_within eps (col0 m)
  /\ unit_within eps (col1 m)
  /\ unit_within eps (col2 m).


(** A direction with real components is parallel to the up axis when it
    has no horizontal part. *)
Definition parallel_to_up (a b : R) : Prop := a = 0%R /\ b = 0%R.

Definition is_number (s : scalar) : Prop := exists r : R, s = Num r.

(** Every block of a result has a boundary of at least one point. *)
Definition hulls_nonempty (result : Result) : Prop :=
  Forall (fun block => nonempty (mHull block)) (mBlocks result).

(** The fitter [processCloud] sets up. *)
Definition fitter_for (inCloud : LabeledCloud) (origin lookDir : Vector3) : BlockFitter :=
  mkFitter origin lookDir inCloud true false 10.

Definition join (pieces : list string) : string :=
  fold_right String.append EmptyString pieces.

Section JsonBlocks.

Variable vecToStr : Vector3 -> string.
Variable rotToStr : Matrix3 -> string.
Variable float_to_string : scalar -> string.

(** The texts of the blocks from index [i] on. *)
Fixpoint json_blocks_from (i : nat) (blocks : list Block) : list string :=
  match blocks with
  | [] => []
  | block :: rest =>
      json_block vecToStr rotToStr float_to_string i block
      :: json_blocks_from (S i) rest
  end.

End JsonBlocks.

(** ** Sample data *)

Definition pointXYZ (x y z : Z) : PointXYZ.t :=
  PointXYZ.mk (Num (IZR x)) (Num (IZR y)) (Num (IZR z)).

(** Two hulls: a triangle and a single point. *)
Definition triangle : HullCloud := [pointXYZ 0 0 0; pointXYZ 1 0 0; pointXYZ 1 1 0].
Definition lone_point : HullCloud := [pointXYZ 0 0 1].
Definition two_hulls : list HullCloud := [triangle; lone_point].

(** A block whose hull is the triangle; its size and pose play no part. *)
Definition sample_block : Block :=
  mkBlock Zero Isometry3_Identity
          [vec3 (Num 0) (Num 0) (Num 0); vec3 (Num 1) (Num 0) (Num 0);
           vec3 (Num 1) (Num 1) (Num 0)].

(** Two stand-ins for the engine: one finds nothing, one always finds the
    sample block. *)
Definition go_nothing (fitter : BlockFitter) : Result := mkResult [].
Definition go_sample (fitter : BlockFitter) : Result := mkResult [sample_block].

(** A stand-in for the grid map conversion: the map is its cloud. *)
Definition toPointCloud_id (msg : LabeledCloud) : LabeledCloud := msg.

(** Stand-ins for the number formatters. *)
Definition no_text {A : Type} (a : A) : string := EmptyString.

(** ** Recorded data sets and the entry point *)

(** [std::string::find] from the start of the string; [None] is [npos]. *)
Definition find (pattern s : string) : option nat := String.index 0 pattern s.

(** What a run writes to [std::cout] and what it does to the node ([None]
    when it reads an uninitialised vector or a point out of range). *)
Record Run : Type :=
  mkRun { console : list string; outcome : option (RobotInterface * list Event) }.

Section FromFile.

Variable go : BlockFitter -> Result.

(** [ros::package::getPath("plane_seg_ros")]. *)
Variable home_dir : string.

(** [pcl::io::loadPLYFile] and [pcl::io::loadPCDFile]: the cloud a file
    gives; the node does not look at their return code. *)
Variable loadPLYFile : string -> LabeledCloud.
Variable loadPCDFile : string -> LabeledCloud.

Local Open Scope string_scope.

(** The chain of tests on [test_example]: the file, and the origin and the
    look direction, which stay uninitialised when no test matches.  The
    decimal literals are held as the reals they denote, as everywhere in the
    scalar model. *)
Definition test_case (test_example : Z) : string * option (Vector3 * Vector3) :=
  if (test_example =? 0)%Z then
    (home_dir ++ "/data/terrain/tilted-steps.pcd",
     Some (vec3 (Num 0.248091) (Num 0.012443) (Num 1.806473),
           vec3 (Num 0.837001) (Num 0.019831) (Num (-0.546842))))
  else if (test_example =? 1)%Z then
    (home_dir ++ "/data/terrain/terrain_med.pcd",
     Some (vec3 (Num (-0.028862)) (Num (-0.007466)) (Num 0.087855),
           vec3 (Num 0.999890) (Num (-0.005120)) (Num (-0.013947))))
  else if (test_example =? 2)%Z then
    (home_dir ++ "/data/terrain/terrain_close_rect.pcd",
     Some (vec3 (Num (-0.028775)) (Num (-0.005776)) (Num 0.087898),
           vec3 (Num 0.999956) (Num (-0.005003)) (Num 0.007958)))
  else if (test_example =? 3)%Z then
    (home_dir ++ "/data/terrain/anymal/ori_entrance_stair_climb/06.pcd",
     Some (vec3 (Num (-0.028775)) (Num (-0.005776)) (Num 0.987898),
           vec3 (Num 0.999956) (Num (-0.005003)) (Num 0.007958)))
  else if (test_example =? 4)%Z then
    (home_dir ++ "/data/leica/race_arenas/RACE_crossplaneramps_sub1cm_cropped_meshlab_icp.ply",
     Some (vec3 (Num (-0.028775)) (Num (-0.005776)) (Num 0.987898),
           vec3 (Num 0.999956) (Num (-0.005003)) (Num 0.007958)))
  else if (test_example =? 5)%Z then
    (home_dir ++ "/data/leica/race_arenas/RACE_stepfield_sub1cm_cropped_meshlab_icp.ply",
     Some (vec3 (Num (-0.028775)) (Num (-0.005776)) (Num 0.987898),
           vec3 (Num 0.999956) (Num (-0.005003)) (Num 0.007958)))
  else ("", None).

(** [processFromFile]; the two seconds of sleep at its start are left
    out. *)
Definition processFromFile (this : RobotInterface) (test_example : Z) : Run :=
  let inFile := fst (test_case test_example) in
  let vectors := snd (test_case test_example) in
  let banner :=
    [newline ++ "Processing test example " ++ to_string test_example ++ newline;
     inFile ++ newline] in
  let found_ply := find ".ply" inFile in
  let found_pcd := find ".pcd" inFile in
  match found_ply, found_pcd with
  | Some _, _ =>
      let inCloud := loadPLYFile inFile in
      mkRun (List.app banner ["readply" ++ newline])
            (do v <- vectors; processCloud go this inCloud (fst v) (snd v))
  | None, Some _ =>
      let inCloud := loadPCDFile inFile in
      mkRun (List.app banner ["readpcd" ++ newline])
            (do v <- vectors; processCloud go this inCloud (fst v) (snd v))
  | None, None =>
      mkRun (List.app banner ["extension not understood" ++ newline]) (Some (this, []))
  end.

(** Two runs one after the other. *)
Definition then_run (first : Run) (next : RobotInterface -> Run) : Run :=
  match outcome first with
  | Some (this, trace) =>
      let second := next this in
      mkRun (List.app (console first) (console second))
            (do r <- outcome second; Some (fst r, List.app trace (snd r)))
  | None => mkRun (console first) None
  end.

(** [main]: with [run_test_program] set, the two Leica examples and
    [exit(0)]; otherwise [ros::spin()] on the messages that arrive. *)
Definition main (run_test_program : bool) (GridMap : Type)
           (toPointCloud : GridMap -> LabeledCloud) (queue : list (Message GridMap))
  : Run :=
  let app := RobotInterface_new in
  let shown :=
    ["run_test_program: " ++ (if run_test_program then "1" else "0") ++ newline] in
  if run_test_program then
    let tests :=
      then_run (processFromFile app 4) (fun app => processFromFile app 5) in
    mkRun (List.app shown
             (List.app ["Running test examples" ++ newline]
                (List.app (console tests) ["Finished!" ++ newline])))
          (outcome tests)
  else
    mkRun shown (spin go toPointCloud app queue).

End FromFile.

(** ** Further vocabulary *)


(** A binary32 vector whose three components are zeros, of either sign. *)
Definition is_null (v : Float32.Vector3f) : Prop :=
  exists sx sy sz : bool,
    v = Float32.vec3f (S754_zero sx) (S754_zero sy) (S754_zero sz).

(** The first column of the rotation matrix of a quaternion with real
    components: the image of the x axis. *)
Definition x_axis_of (w x y z : R) : Vector3 :=
  vec3 (Num (1 - 2 * (y * y + z * z)))
       (Num (2 * (x * y + w * z)))
       (Num (2 * (x * z - w * y))).

(** The rotation by an angle of cosine [c] and sine [s] about the up axis. *)
Definition yaw_rotation (c s : R) : Matrix3 :=
  mat3 (vec3 (Num c) (Num s) (Num 0))
       (vec3 (Num (- s)) (Num c) (Num 0))
       (vec3 (Num 0) (Num 0) (Num 1)).

(** The coordinates of a point, of either kind. *)
Definition xyz (p : PointXYZ.t) : scalar * scalar * scalar :=
  (PointXYZ.x p, PointXYZ.y p, PointXYZ.z p).

Definition xyz_rgb (p : PointXYZRGB.t) : scalar * scalar * scalar :=
  (PointXYZRGB.x p, PointXYZRGB.y p, PointXYZRGB.z p).

(** A byte as a [double]. *)
Definition byte_double (k : Z) : float := PrimFloat.of_uint63 (Uint63.of_Z k).


(** An angle that is [NaN] or a number of absolute value at most [bound]. *)
Definition NaN_or_within (bound : R) (s : scalar) : Prop :=
  s = NaN \/ exists r : R, s = Num r /\ (- bound <= r <= bound)%R.

(** A character occurs in a string. *)
Fixpoint occurs (c : ascii) (s : string) : bool :=
  match s with
  | EmptyString => false
  | String a s' => Ascii.eqb c a || occurs c s'
  end.


(** Stand-ins for the two file readers: one labelled point each, the label
    telling them apart. *)
Definition load_ply_stub (file : string) : LabeledCloud :=
  [PointXYZL.mk (Num 0) (Num 0) (Num 0) 1].
Definition load_pcd_stub (file : string) : LabeledCloud :=
  [PointXYZL.mk (Num 0) (Num 0) (Num 0) 2].

(** A channel on the 0..255 scale that the [float] of a marker colour holds
    without rounding. *)
Definition exact_channel (ch : float) : Prop :=
  PrimFloat.leb 0 ch = true /\ PrimFloat.leb ch 255 = true /\ double_to_float ch = ch.

(** A pattern occurs somewhere in a string. *)
Definition contains (pattern s : string) : bool :=
  match find pattern s with
  | Some _ => true
  | None => false
  end.

(** The origin and the look direction shared by the examples 2 to 5 up to
    the height of the origin. *)
Definition leica_origin : Vector3 :=
  vec3 (Num (-0.028775)) (Num (-0.005776)) (Num 0.987898).
Definition leica_lookDir : Vector3 :=
  vec3 (Num 0.999956) (Num (-0.005003)) (Num 0.007958).

(** The two files of the test program, under the package path. *)
Definition leica_file_4 (home_dir : string) : string :=
  (home_dir
   ++ "/data/leica/race_arenas/RACE_crossplaneramps_sub1cm_cropped_meshlab_icp.ply")%string.
Definition leica_file_5 (home_dir : string) : string :=
  (home_dir
   ++ "/data/leica/race_arenas/RACE_stepfield_sub1cm_cropped_meshlab_icp.ply")%string.

(** * Properties *)

Unset Implicit Arguments.

(** ** Lists, loops and vector reads *)

Lemma at_in_range {A : Type} (v : list A) (j : nat) :
  (j < List.length v)%nat -> at_ v (Z.of_nat j) = nth_error v j.
Proof.
  intros H. unfold at_, size.
  replace ((0 <=? Z.of_nat j) && (Z.of_nat j <? Z.of_nat (List.length v)))%Z with true.
  - now rewrite Nat2Z.id.
  - symmetry. apply andb_true_intro. split.
    + apply Z.leb_le. lia.
    + apply Z.ltb_lt. lia.
Qed.

Lemma at_nth {A : Type} (v : list A) (j : nat) (d : A) :
  (j < List.length v)%nat -> at_ v (Z.of_nat j) = Some (nth j v d).
Proof.
  intros H. rewrite (at_in_range v j H). now apply nth_error_nth'.
Qed.

Lemma size_t_sub_pred (j : nat) :
  (1 <= j)%nat -> size_t_sub (Z.of_nat j) 1 = Z.of_nat (j - 1).
Proof.
  intros H. unfold size_t_sub.
  replace (Z.of_nat j <? 1)%Z with false.
  - lia.
  - symmetry. apply Z.ltb_ge. lia.
Qed.

Lemma size_t_sub_zero : size_t_sub 0 1 = (size_t_modulus - 1)%Z.
Proof. reflexivity. Qed.

(** On values of the type, [size_t_sub] is subtraction modulo 2^64. *)
Lemma size_t_sub_mod (a b : Z) :
  (0 <= a < size_t_modulus)%Z -> (0 <= b < size_t_modulus)%Z ->
  size_t_sub a b = ((a - b) mod size_t_modulus)%Z.
Proof.
  intros Ha Hb. unfold size_t_sub.
  destruct (Z.ltb_spec a b) as [Hlt | Hge].
  - apply Z.mod_unique with (q := (-1)%Z); lia.
  - symmetry. apply Z.mod_small. lia.
Qed.

Lemma segments_vertices {A : Type} (segs : list (A * A)) (rest : list A) :
  segments (vertices segs ++ rest) = segs ++ segments rest.
Proof.
  induction segs as [|[a b] segs IH]; simpl.
  - reflexivity.
  - now rewrite IH.
Qed.

Lemma vertices_app {A : Type} (s1 s2 : list (A * A)) :
  vertices (s1 ++ s2) = vertices s1 ++ vertices s2.
Proof. unfold vertices. now rewrite flat_map_app. Qed.

Lemma length_line_loop {A : Type} (boundary : list A) :
  List.length (line_loop boundary) = List.length boundary.
Proof.
  destruct boundary as [|first rest]; simpl.
  - reflexivity.
  - rewrite length_app, length_map, length_seq. simpl. lia.
Qed.

Lemma line_loop_cons {A : Type} (first : A) (rest : list A) :
  line_loop (first :: rest)
  = map (fun j => (nth (j - 1) (first :: rest) first, nth j (first :: rest) first))
        (seq 1 (List.length rest))
    ++ [(first, nth (List.length rest) (first :: rest) first)].
Proof.
  unfold line_loop.
  replace (List.length (first :: rest) - 1)%nat with (List.length rest)
    by (simpl; lia).
  reflexivity.
Qed.

Lemma line_loop_map {A B : Type} (f : A -> B) (boundary : list A) :
  line_loop (map f boundary)
  = map (fun s => (f (fst s), f (snd s))) (line_loop boundary).
Proof.
  destruct boundary as [|first rest]; [reflexivity|].
  change (map f (first :: rest)) with (f first :: map f rest).
  rewrite !line_loop_cons, map_app, map_map, length_map.
  change (f first :: map f rest) with (map f (first :: rest)).
  f_equal.
  - apply map_ext. intros j. cbn [fst snd]. now rewrite !map_nth.
  - now rewrite map_nth.
Qed.

(** ** The marker under construction *)

Lemma push_extend (m : Marker.t) (c : ColorRGBA.t) (p : Point.t) :
  Marker.push m c p = Marker.extend m [c] [p].
Proof. reflexivity. Qed.

Lemma extend_extend (m : Marker.t) cs1 ps1 cs2 ps2 :
  Marker.extend (Marker.extend m cs1 ps1) cs2 ps2
  = Marker.extend m (cs1 ++ cs2) (ps1 ++ ps2).
Proof. unfold Marker.extend; simpl. now rewrite <- !app_assoc. Qed.

Lemma extend_nil (m : Marker.t) : Marker.extend m [] [] = m.
Proof. destruct m; unfold Marker.extend; simpl. now rewrite !app_nil_r. Qed.

(** The edge loop over indices that are all inside the hull appends, for
    each index [j], the vertices [j - 1] and [j] in the hull's colour. *)
Lemma edge_loop_appends rgb (cloud : HullCloud) (first : PointXYZ.t) (js : list nat)
      (m : Marker.t) :
  Forall (fun j => 1 <= j < List.length cloud)%nat js ->
  for_each (edge_step rgb cloud) js m
  = Some (Marker.extend m
            (repeat (to_ColorRGBA rgb) (2 * List.length js))
            (vertices (map (fun j => (to_Point (nth (j - 1) cloud first),
                                      to_Point (nth j cloud first))) js))).
Proof.
  intros H. revert m. induction H as [|j js Hj Hjs IH]; intros m.
  - simpl. now rewrite extend_nil.
  - simpl for_each. unfold edge_step at 1.
    rewrite (size_t_sub_pred j (proj1 Hj)).
    rewrite (at_nth cloud (j - 1) first) by lia. cbn [bind].
    rewrite (at_nth cloud j first) by lia. cbn [bind].
    rewrite IH, !push_extend, !extend_extend. f_equal. f_equal.
    replace (2 * List.length (j :: js))%nat with (S (S (2 * List.length js))) by (simpl; lia).
    reflexivity.
Qed.

Lemma edge_indices_in_range (n : nat) :
  Forall (fun j => 1 <= j < n)%nat (seq 1 (n - 1)).
Proof.
  apply Forall_forall. intros j Hj. apply in_seq in Hj. lia.
Qed.

(** One hull with at least one point: its whole line loop is appended. *)
Lemma marker_step_appends (i : nat) (cloud : HullCloud) (m : Marker.t) :
  nonempty cloud ->
  marker_step i cloud m
  = Some (Marker.extend m
            (repeat (to_ColorRGBA (hull_rgb i)) (2 * List.length cloud))
            (vertices (line_loop (map to_Point cloud)))).
Proof.
  intros Hne. destruct cloud as [|first rest]; [now elim Hne|].
  unfold marker_step.
  rewrite (edge_loop_appends (hull_rgb i) _ first _ _ (edge_indices_in_range _)).
  cbn [bind].
  change 0%Z with (Z.of_nat 0).
  rewrite (at_nth (first :: rest) 0 first) by (simpl; lia). cbn [bind].
  unfold size. rewrite (size_t_sub_pred (List.length (first :: rest))) by (simpl; lia).
  rewrite (at_nth (first :: rest) _ first) by (simpl; lia). cbn [bind].
  rewrite !push_extend, !extend_extend. f_equal. f_equal.
  - rewrite length_seq. simpl List.length.
    change ([to_ColorRGBA (hull_rgb i)] ++ [to_ColorRGBA (hull_rgb i)])
      with (repeat (to_ColorRGBA (hull_rgb i)) 2).
    rewrite <- repeat_app. f_equal. lia.
  - rewrite line_loop_map, line_loop_cons, map_app, vertices_app, map_map.
    replace (List.length (first :: rest) - 1)%nat with (List.length rest)
      by (simpl; lia).
    reflexivity.
Qed.

(** A hull without points: the read of [points[0]] is out of range. *)
Lemma marker_step_empty (i : nat) (m : Marker.t) : marker_step i [] m = None.
Proof. reflexivity. Qed.

Lemma marker_loop_appends (hulls : list HullCloud) :
  Forall nonempty hulls ->
  forall (i : nat) (m : Marker.t),
    marker_loop i hulls m
    = Some (Marker.extend m
              (flat_map (fun ih => repeat (to_ColorRGBA (hull_rgb (fst ih)))
                                          (2 * List.length (snd ih)))
                        (combine (seq i (List.length hulls)) hulls))
              (vertices (List.concat (map (fun h => line_loop (map to_Point h)) hulls)))).
Proof.
  induction 1 as [|hull rest Hne Hrest IH]; intros i m.
  - simpl. now rewrite extend_nil.
  - cbn [marker_loop]. rewrite (marker_step_appends i hull m Hne). cbn [bind].
    rewrite IH, extend_extend. f_equal. f_equal.
    cbn [map List.concat]. now rewrite vertices_app.
Qed.

Lemma marker_loop_empty_hull (hulls : list HullCloud) :
  In [] hulls -> forall (i : nat) (m : Marker.t), marker_loop i hulls m = None.
Proof.
  induction hulls as [|hull rest IH]; intros Hin i m.
  - destruct Hin.
  - cbn [marker_loop]. destruct hull as [|p hull].
    + now rewrite marker_step_empty.
    + destruct Hin as [Heq | Hin]; [discriminate|].
      rewrite (marker_step_appends i (p :: hull) m) by discriminate.
      cbn [bind]. now apply IH.
Qed.

(** ** The palette behind the flat table *)

Lemma rows_nth (table : list float) (k : nat) (d : float) :
  (3 * k + 2 < List.length table)%nat ->
  nth k (rows table) (d, d, d)
  = (nth (3 * k) table d, nth (3 * k + 1) table d, nth (3 * k + 2) table d).
Proof.
  revert table. induction k as [|k IH]; intros table H.
  - destruct table as [|r [|g [|b rest]]]; simpl in H; try lia. reflexivity.
  - destruct table as [|r [|g [|b rest]]]; simpl in H; try lia.
    replace (3 * S k)%nat with (S (S (S (3 * k)))) by lia.
    cbn [rows nth Nat.add]. apply IH. lia.
Qed.

Lemma length_colors_ : List.length colors_ = 84%nat.
Proof. reflexivity. Qed.


Lemma nColor_mod (i : nat) : nColor i = Z.of_nat (i mod 28).
Proof.
  unfold nColor, size. rewrite length_colors_.
  change (Z.of_nat 84 / 3)%Z with (Z.of_nat 28).
  now rewrite <- Nat2Z.inj_mod.
Qed.

(** Every offset [nColor * 3 + c], [c] in 0..2, is inside [colors_]. *)
Lemma color_offsets_in_range (i : nat) (c : Z) :
  (0 <= c <= 2)%Z -> (0 <= nColor i * 3 + c < size colors_)%Z.
Proof.
  intros Hc. rewrite nColor_mod. unfold size. rewrite length_colors_.
  pose proof (Nat.mod_upper_bound i 28). lia.
Qed.

(** The three doubles of hull [i] are row [i mod 28] of the palette, on the
    0..255 scale. *)
Lemma hull_rgb_palette (i : nat) : hull_rgb i = scaled (color i).
Proof.
  unfold hull_rgb, color, scaled, palette, colors_at.
  rewrite nColor_mod.
  change (List.length (rows colors_)) with 28%nat.
  assert (Hk : (i mod 28 < 28)%nat) by (apply Nat.mod_upper_bound; lia).
  set (k := (i mod 28)%nat) in *.
  change (0, 0, 0)%float with ((0, 0, 0)%float : float * float * float).
  rewrite (rows_nth colors_ k 0%float) by (rewrite length_colors_; lia).
  replace (Z.to_nat (Z.of_nat k * 3)) with (3 * k)%nat by lia.
  replace (Z.to_nat (Z.of_nat k * 3 + 1)) with (3 * k + 1)%nat by lia.
  replace (Z.to_nat (Z.of_nat k * 3 + 2)) with (3 * k + 2)%nat by lia.
  reflexivity.
Qed.


(** ** The combined cloud *)

Lemma cloud_step_coloured (i : nat) (cloud : HullCloud) (acc : list PointXYZRGB.t) :
  cloud_step i cloud acc = acc ++ map (coloured (color i)) cloud.
Proof.
  unfold cloud_step, copyPointCloud. rewrite hull_rgb_palette.
  unfold coloured. destruct (scaled (color i)) as [[r g] b].
  now rewrite map_map.
Qed.

Lemma cloud_loop_coloured (hulls : list HullCloud) :
  forall (i : nat) (acc : list PointXYZRGB.t),
    cloud_loop i hulls acc = acc ++ coloured_from i hulls.
Proof.
  induction hulls as [|hull rest IH]; intros i acc; cbn [cloud_loop coloured_from].
  - now rewrite app_nil_r.
  - now rewrite IH, cloud_step_coloured, <- app_assoc.
Qed.




(** ** The colours of the line list *)

Lemma vertex_colours_combine (hulls : list HullCloud) :
  forall i : nat,
    flat_map (fun ih => repeat (to_ColorRGBA (hull_rgb (fst ih)))
                               (2 * List.length (snd ih)))
             (combine (seq i (List.length hulls)) hulls)
    = vertex_colours_from i hulls.
Proof.
  induction hulls as [|hull rest IH]; intros i.
  - reflexivity.
  - cbn [List.length seq combine flat_map vertex_colours_from fst snd].
    now rewrite IH, hull_rgb_palette.
Qed.


(** The marker of hulls that all have a point, in closed form. *)
Lemma publishHullsAsMarkers_closed_form (hulls : list HullCloud) (secs nsecs : Z) :
  Forall nonempty hulls ->
  exists marker : Marker.t,
    publishHullsAsMarkers hulls secs nsecs = Some marker
    /\ Marker.points marker
       = vertices (List.concat (map (fun h => line_loop (map to_Point h)) hulls))
    /\ Marker.colors marker = vertex_colours_from 0 hulls
    /\ Marker.frame_locked marker = true.
Proof.
  intros H. unfold publishHullsAsMarkers.
  rewrite (marker_loop_appends hulls H). cbn [bind].
  eexists. split; [reflexivity|].
  cbn. now rewrite vertex_colours_combine.
Qed.

Lemma publishHullsAsMarkers_empty_hull (hulls : list HullCloud) (secs nsecs : Z) :
  In [] hulls -> publishHullsAsMarkers hulls secs nsecs = None.
Proof.
  intros H. unfold publishHullsAsMarkers.
  now rewrite (marker_loop_empty_hull hulls H).
Qed.

(** The part of a concatenation that comes from its [i]-th list. *)
Lemma concat_slice {A : Type} (ls : list (list A)) :
  forall (i : nat) (l : list A),
    nth_error ls i = Some l ->
    firstn (List.length l) (skipn (List.length (List.concat (firstn i ls))) (List.concat ls))
    = l.
Proof.
  induction ls as [|l0 ls IH]; intros i l Hi.
  - destruct i; discriminate.
  - destruct i as [|i]; cbn [nth_error] in Hi; cbn [firstn List.concat].
    + injection Hi as ->. cbn [List.length skipn].
      rewrite firstn_app, Nat.sub_diag, firstn_all. cbn [firstn]. apply app_nil_r.
    + rewrite length_app, skipn_app.
      rewrite skipn_all2 by lia.
      replace (List.length l0 + List.length (List.concat (firstn i ls)) - List.length l0)%nat
        with (List.length (List.concat (firstn i ls))) by lia.
      cbn [app]. now apply IH.
Qed.

Lemma loops_offset (hulls : list HullCloud) (i : nat) :
  List.length (List.concat (firstn i (map (fun h => line_loop (map to_Point h)) hulls)))
  = offset hulls i.
Proof.
  unfold offset. revert i. induction hulls as [|h rest IH]; intros i.
  - now destruct i.
  - destruct i as [|i]; [reflexivity|].
    cbn [map firstn List.concat]. rewrite !length_app, IH.
    now rewrite length_line_loop, length_map.
Qed.

Lemma nonempty_or_empty_hull (hulls : list HullCloud) :
  Forall nonempty hulls \/ In [] hulls.
Proof.
  induction hulls as [|hull rest [IH | IH]].
  - left. constructor.
  - destruct hull as [|p hull].
    + right. now left.
    + left. constructor; [discriminate | exact IH].
  - right. now right.
Qed.

(** ** The line list of [publishHullsAsMarkers] *)

(** C1, as the code has it: when every hull has at least one point, the
    line list is, hull after hull, the closed loop of the hull: a hull with
    [n >= 1] boundary points contributes exactly [n] segments, the [n - 1]
    edges [(boundary[j-1], boundary[j])] followed by the closing segment
    [(boundary[0], boundary[n-1])].  A hull with a single point therefore
    contributes one segment, from that point to itself. *)
Theorem markers_hold_one_closed_loop_per_hull
        (hulls : list HullCloud) (secs nsecs : Z) :
  Forall nonempty hulls ->
  exists marker : Marker.t,
    publishHullsAsMarkers hulls secs nsecs = Some marker
    /\ segments (Marker.points marker)
       = List.concat (map (fun h => line_loop (map to_Point h)) hulls)
    /\ forall (i : nat) (hull : HullCloud),
        nth_error hulls i = Some hull ->
        firstn (List.length hull)
               (skipn (offset hulls i) (segments (Marker.points marker)))
        = line_loop (map to_Point hull)
        /\ List.length (line_loop (map to_Point hull)) = List.length hull.
Proof.
  intros H.
  destruct (publishHullsAsMarkers_closed_form hulls secs nsecs H)
    as (marker & Hrun & Hpoints & _).
  exists marker. split; [exact Hrun|].
  assert (Hsegs : segments (Marker.points marker)
                  = List.concat (map (fun h => line_loop (map to_Point h)) hulls)).
  { rewrite Hpoints, <- (app_nil_r (vertices _)), segments_vertices.
    apply app_nil_r. }
  split; [exact Hsegs|].
  intros i hull Hi. split.
  - rewrite Hsegs, <- loops_offset.
    rewrite <- (length_map to_Point hull) at 1.
    rewrite <- (length_line_loop (map to_Point hull)).
    apply concat_slice.
    exact (map_nth_error (fun h => line_loop (map to_Point h)) i hulls Hi).
  - now rewrite length_line_loop, length_map.
Qed.

Lemma markers_hold_one_closed_loop_per_hull_witness :
  exists marker : Marker.t,
    publishHullsAsMarkers two_hulls 0 0 = Some marker
    /\ List.length (segments (Marker.points marker)) = 4%nat.
Proof.
  destruct (markers_hold_one_closed_loop_per_hull two_hulls 0 0)
    as (marker & Hrun & Hsegs & _).
  - repeat constructor; discriminate.
  - exists marker. split; [exact Hrun|]. rewrite Hsegs. reflexivity.
Defined.

(** C1, as the claim states it, fails on a hull with exactly one point: the
    start-to-end line is emitted all the same, so the hull has one segment
    and not zero. *)
Lemma single_point_hull_counterexample :
  option_map (fun marker => segments (Marker.points marker))
             (publishHullsAsMarkers [lone_point] 0 0)
  = Some [(to_Point (pointXYZ 0 0 1), to_Point (pointXYZ 0 0 1))]
  /\ option_map (fun marker => List.length (segments (Marker.points marker)))
                (publishHullsAsMarkers two_hulls 0 0)
     = Some 4%nat.
Proof. split; reflexivity. Qed.

(** C9: the point reads of [publishHullsAsMarkers] (indices [j - 1] and
    [j] in the edge loop, [0] and [size - 1] for the start-to-end line) are
    all in range exactly when every hull has at least one point; the
    start-to-end line is emitted whatever the size, so one empty hull makes
    a read fall outside. *)
Theorem marker_reads_in_range_iff_hulls_nonempty
        (hulls : list HullCloud) (secs nsecs : Z) :
  (Forall nonempty hulls ->
   exists marker : Marker.t, publishHullsAsMarkers hulls secs nsecs = Some marker)
  /\ (In [] hulls -> publishHullsAsMarkers hulls secs nsecs = None)
  /\ ((exists marker : Marker.t, publishHullsAsMarkers hulls secs nsecs = Some marker)
      -> Forall nonempty hulls).
Proof.
  split; [|split].
  - intros H.
    destruct (publishHullsAsMarkers_closed_form hulls secs nsecs H) as (marker & Hrun & _).
    now exists marker.
  - apply publishHullsAsMarkers_empty_hull.
  - intros [marker Hrun].
    destruct (nonempty_or_empty_hull hulls) as [H | H]; [exact H|].
    rewrite (publishHullsAsMarkers_empty_hull hulls secs nsecs H) in Hrun.
    discriminate.
Qed.

Lemma marker_reads_in_range_iff_hulls_nonempty_witness :
  (exists marker : Marker.t, publishHullsAsMarkers two_hulls 0 0 = Some marker)
  /\ publishHullsAsMarkers [triangle; []] 0 0 = None.
Proof.
  split.
  - apply (proj1 (marker_reads_in_range_iff_hulls_nonempty two_hulls 0 0)).
    repeat constructor; discriminate.
  - apply (proj1 (proj2 (marker_reads_in_range_iff_hulls_nonempty [triangle; []] 0 0))).
    right. now left.
Defined.

(** ** Colours *)






(** ** Scalars *)

Section ScalarFacts.

Local Open Scope R_scope.

Lemma gtb_Num_true (x y : R) : y < x -> Scalar.gtb (Num x) (Num y) = true.
Proof. intros H. unfold Scalar.gtb. destruct (Rlt_dec y x); [reflexivity | contradiction]. Qed.

Lemma gtb_Num_false (x y : R) : x <= y -> Scalar.gtb (Num x) (Num y) = false.
Proof. intros H. unfold Scalar.gtb. destruct (Rlt_dec y x); [lra | reflexivity]. Qed.

Lemma sqrt_Num (x : R) : 0 <= x -> Scalar.sqrt (Num x) = Num (sqrt x).
Proof. intros H. unfold Scalar.sqrt. destruct (Rlt_dec x 0); [lra | reflexivity]. Qed.

Lemma div_Num (x y : R) : y <> 0 -> Scalar.div (Num x) (Num y) = Num (x / y).
Proof. intros H. unfold Scalar.div. destruct (Req_dec_T y 0); [contradiction | reflexivity]. Qed.

Lemma asin_Num (x : R) : -1 <= x <= 1 -> Scalar.asin (Num x) = Num (asin x).
Proof.
  intros [H1 H2]. unfold Scalar.asin.
  destruct (Rle_dec (-1) x); [|contradiction].
  destruct (Rle_dec x 1); [reflexivity | contradiction].
Qed.

Lemma asin_out_of_domain (x : R) : ~ (-1 <= x <= 1) -> Scalar.asin (Num x) = NaN.
Proof.
  intros H. unfold Scalar.asin.
  destruct (Rle_dec (-1) x); [|reflexivity].
  destruct (Rle_dec x 1); [|reflexivity].
  elim H. now split.
Qed.

Lemma atan2R_0_1 : Scalar.atan2R 0 1 = 0.
Proof.
  unfold Scalar.atan2R. destruct (Rlt_dec 0 1); [|lra].
  replace (0 / 1) with 0 by field. exact atan_0.
Qed.

Lemma Num_eq (x y : R) : x = y -> Num x = Num y.
Proof. now intros ->. Qed.

Lemma sqrt_4 : sqrt (1 + 1 + 1 + 1) = 2.
Proof. replace (1 + 1 + 1 + 1) with (2 * 2) by ring. apply sqrt_square. lra. Qed.

End ScalarFacts.

(** ** Orientation *)

Section Orientation.

Local Open Scope R_scope.

Lemma pitch_argument_Num (w x y z : R) :
  pitch_argument (quat (Num w) (Num x) (Num y) (Num z)) = Num (2 * (w * y - z * x)).
Proof. reflexivity. Qed.

Lemma unit_quaternion_pitch_argument (w x y z : R) :
  w * w + x * x + y * y + z * z = 1 -> -1 <= 2 * (w * y - z * x) <= 1.
Proof.
  intros H.
  pose proof (Rle_0_sqr (w - y)). pose proof (Rle_0_sqr (w + y)).
  pose proof (Rle_0_sqr (z - x)). pose proof (Rle_0_sqr (z + x)).
  unfold Rsqr in *. split; nra.
Qed.

Lemma Quaternion_of_identity :
  Quaternion_of_matrix Matrix3_Identity = quat (Num 1) (Num 0) (Num 0) (Num 0).
Proof.
  unfold Quaternion_of_matrix.
  assert (Ht : trace Matrix3_Identity = Num (1 + 1 + 1)) by reflexivity.
  rewrite Ht, gtb_Num_true by lra.
  change (Num (1 + 1 + 1) + Num 1)%scalar with (Num (1 + 1 + 1 + 1)).
  rewrite sqrt_Num by lra. rewrite sqrt_4.
  rewrite div_Num by lra.
  cbn. f_equal; apply Num_eq; field.
Qed.

Lemma quat_to_euler_identity :
  quat_to_euler (quat (Num 1) (Num 0) (Num 0) (Num 0)) = euler (Num 0) (Num 0) (Num 0).
Proof.
  unfold quat_to_euler. rewrite pitch_argument_Num.
  cbn [qw qx qy qz Scalar.atan2 Scalar.lift2 Scalar.mul Scalar.add Scalar.sub].
  replace (2 * (1 * 0 + 0 * 0)) with 0 by ring.
  replace (1 - 2 * (0 * 0 + 0 * 0)) with 1 by ring.
  replace (2 * (1 * 0 - 0 * 0)) with 0 by ring.
  rewrite atan2R_0_1, asin_Num by lra. now rewrite asin_0.
Qed.

Lemma look_direction_of_identity :
  convertRobotPoseToSensorLookDir Isometry3_Identity = UnitX.
Proof.
  unfold convertRobotPoseToSensorLookDir, rotation.
  cbn [linear Isometry3_Identity].
  rewrite Quaternion_of_identity, quat_to_euler_identity.
  cbn. unfold UnitX. rewrite Ropp_0, cos_0, sin_0.
  f_equal; apply Num_eq; ring.
Qed.

End Orientation.

(** ** The look frame *)

Section Frame.

Local Open Scope R_scope.

Lemma normalized_Num (x y z : R) :
  0 < x * x + y * y + z * z ->
  normalized (vec3 (Num x) (Num y) (Num z))
  = vec3 (Num (x / sqrt (x * x + y * y + z * z)))
         (Num (y / sqrt (x * x + y * y + z * z)))
         (Num (z / sqrt (x * x + y * y + z * z))).
Proof.
  intros H. unfold normalized, squaredNorm, dot.
  cbn [vx vy vz Scalar.mul Scalar.add Scalar.lift2].
  rewrite gtb_Num_true by exact H.
  rewrite sqrt_Num by lra.
  unfold scale_down. cbn [vx vy vz].
  pose proof (sqrt_lt_R0 _ H).
  now rewrite !div_Num by lra.
Qed.

Lemma normalized_null (x y z : R) :
  x * x + y * y + z * z <= 0 ->
  normalized (vec3 (Num x) (Num y) (Num z)) = vec3 (Num x) (Num y) (Num z).
Proof.
  intros H. unfold normalized, squaredNorm, dot.
  cbn [vx vy vz Scalar.mul Scalar.add Scalar.lift2].
  now rewrite gtb_Num_false by exact H.
Qed.

(** The two cross products of [processCloud], on real components. *)
Lemma look_rotation_Num (a b c : R) :
  look_rotation (vec3 (Num a) (Num b) (Num c))
  = mat3 (normalized (vec3 (Num b) (Num (- a)) (Num 0)))
         (normalized (vec3 (Num (a * c)) (Num (b * c)) (Num (- (a * a + b * b)))))
         (normalized (vec3 (Num a) (Num b) (Num c))).
Proof.
  unfold look_rotation, cross, UnitZ.
  cbn [vx vy vz Scalar.mul Scalar.sub Scalar.lift2].
  f_equal; f_equal; f_equal; apply Num_eq; ring.
Qed.

Lemma norm_Num (x y z : R) :
  norm (vec3 (Num x) (Num y) (Num z)) = Num (sqrt (x * x + y * y + z * z)).
Proof.
  unfold norm, squaredNorm, dot.
  cbn [vx vy vz Scalar.mul Scalar.add Scalar.lift2].
  apply sqrt_Num. nra.
Qed.

Lemma dot_Num (x y z x' y' z' : R) :
  dot (vec3 (Num x) (Num y) (Num z)) (vec3 (Num x') (Num y') (Num z'))
  = Num (x * x' + y * y' + z * z').
Proof. reflexivity. Qed.







End Frame.

(** ** The node: one processing cycle *)

Section NodeFacts.

Variable go : BlockFitter -> Result.
Variable GridMap : Type.
Variable toPointCloud : GridMap -> LabeledCloud.

Lemma hull_clouds_nonempty (result : Result) :
  hulls_nonempty result -> Forall nonempty (map hull_cloud (mBlocks result)).
Proof.
  unfold hulls_nonempty. intros H. apply Forall_map.
  apply (Forall_impl _ (P := fun block => nonempty (mHull block))); [|exact H].
  intros block Hb. unfold hull_cloud, nonempty in *.
  destruct (mHull block); [now elim Hb | discriminate].
Qed.

Lemma publishResult_runs (this : RobotInterface) :
  hulls_nonempty (result_ this) ->
  exists published : list Event,
    publishResult this = Some published /\ fitters published = [].
Proof.
  intros H. unfold publishResult.
  destruct (publishHullsAsMarkers_closed_form _ 0 0 (hull_clouds_nonempty _ H))
    as (marker & Hrun & _).
  rewrite Hrun. cbn [bind]. eexists. split; reflexivity.
Qed.

(** A cycle, whatever the cloud: the engine runs on it, its return
    replaces [result_], the pose is kept, and the look pose and the cloud
    are published before the hulls. *)
Lemma processCloud_runs (this : RobotInterface) (inCloud : LabeledCloud)
      (origin lookDir : Vector3) :
  let fitter := fitter_for inCloud origin lookDir in
  hulls_nonempty (go fitter) ->
  exists published : list Event,
    processCloud go this inCloud origin lookDir
    = Some (mkRobotInterface (last_robot_pose_ this) (go fitter),
            [fitter_go fitter;
             look_pose_pub_ (PoseStamped.mk "odom" (0, 0)%Z (look_pose origin lookDir));
             received_cloud_pub_ (PointCloud2.mk "odom" (0, 0)%Z inCloud)] ++ published)
    /\ fitters published = [].
Proof.
  intros fitter H. unfold processCloud. fold (fitter_for inCloud origin lookDir).
  fold fitter.
  destruct (publishResult_runs (mkRobotInterface (last_robot_pose_ this) (go fitter)) H)
    as (published & Hpub & Hnone).
  rewrite Hpub. cbn [bind]. now exists published.
Qed.

Lemma fitters_app (t1 t2 : list Event) : fitters (t1 ++ t2) = fitters t1 ++ fitters t2.
Proof.
  induction t1 as [|e t1 IH]; [reflexivity|].
  destruct e; cbn [app fitters]; now rewrite IH.
Qed.


End NodeFacts.

(** ** The text dump *)

Section JsonFacts.

Variable vecToStr : Vector3 -> string.
Variable rotToStr : Matrix3 -> string.
Variable float_to_string : scalar -> string.

Local Open Scope string_scope.

Lemma append_assoc (s1 s2 s3 : string) : (s1 ++ s2) ++ s3 = s1 ++ (s2 ++ s3).
Proof. induction s1 as [|c s1 IH]; simpl; [reflexivity | now rewrite IH]. Qed.

Lemma append_empty_r (s : string) : s ++ "" = s.
Proof. induction s as [|c s IH]; simpl; [reflexivity | now rewrite IH]. Qed.

Lemma json_loop_join (blocks : list Block) :
  forall (i : nat) (json : string),
    json_loop vecToStr rotToStr float_to_string i blocks json
    = json ++ join (json_blocks_from vecToStr rotToStr float_to_string i blocks).
Proof.
  induction blocks as [|block rest IH]; intros i json;
    cbn [json_loop json_blocks_from join fold_right].
  - now rewrite append_empty_r.
  - rewrite IH. apply append_assoc.
Qed.

Lemma json_blocks_from_nth (blocks : list Block) :
  forall (i0 i : nat) (block : Block),
    nth_error blocks i = Some block ->
    nth_error (json_blocks_from vecToStr rotToStr float_to_string i0 blocks) i
    = Some (json_block vecToStr rotToStr float_to_string (i0 + i) block).
Proof.
  induction blocks as [|b rest IH]; intros i0 i block Hi.
  - destruct i; discriminate.
  - destruct i as [|i]; cbn [nth_error json_blocks_from] in *.
    + injection Hi as ->. now rewrite Nat.add_0_r.
    + rewrite (IH (S i0) i block Hi).
      now replace (S i0 + i)%nat with (i0 + S i)%nat by lia.
Qed.

End JsonFacts.

(** C8, as the code has it: the dump is the text of the blocks in order,
    and the text of the block at index [i] opens with, and repeats in its
    uuid field, the identifier "0_<i+1>": the constant prefix 0, an
    underscore and [i + 1].  The prefix does not follow the cycles. *)
Theorem dump_identifier_is_zero_underscore_index_plus_one
        (vecToStr : Vector3 -> string) (rotToStr : Matrix3 -> string)
        (float_to_string : scalar -> string)
        (this : RobotInterface) (i : nat) (block : Block) :
  nth_error (mBlocks (result_ this)) i = Some block ->
  printResultAsJson vecToStr rotToStr float_to_string this
  = (join (json_blocks_from vecToStr rotToStr float_to_string 0 (mBlocks (result_ this)))
     ++ newline)%string
  /\ nth_error (json_blocks_from vecToStr rotToStr float_to_string 0
                                 (mBlocks (result_ this))) i
     = Some (json_block vecToStr rotToStr float_to_string i block)
  /\ (exists fields : string,
         json_block vecToStr rotToStr float_to_string i block
         = ("    " ++ quote ++ uuid i ++ quote ++ ": {" ++ newline ++ fields)%string)
  /\ uuid i = ("0_" ++ to_string (Z.of_nat i + 1))%string
  /\ uuid i = spec_identifier 0 i.
Proof.
  intros Hi. split; [|split; [|split; [|split]]].
  - unfold printResultAsJson. now rewrite json_loop_join.
  - exact (json_blocks_from_nth vecToStr rotToStr float_to_string _ 0 i block Hi).
  - unfold json_block. cbv zeta. eexists. reflexivity.
  - reflexivity.
  - reflexivity.
Qed.

Lemma dump_identifier_is_zero_underscore_index_plus_one_witness :
  uuid 0 = spec_identifier 0 0.
Proof.
  exact (proj2 (proj2 (proj2 (proj2
    (dump_identifier_is_zero_underscore_index_plus_one
       no_text no_text no_text
       (mkRobotInterface Isometry3_Identity (mkResult [sample_block]))
       0 sample_block eq_refl))))).
Defined.

(** C8, as the claim states it, fails from the second cycle on: after two
    clouds (cycle index 1) the first block is still called "0_1", where the
    claim has "1_1". *)
Lemma second_cycle_identifier_counterexample :
  exists (this : RobotInterface) (trace : list Event),
    spin go_sample toPointCloud_id RobotInterface_new
         [point_cloud_in LabeledCloud []; point_cloud_in LabeledCloud []]
    = Some (this, trace)
    /\ List.length (fitters trace) = 2%nat
    /\ nth_error (mBlocks (result_ this)) 0 = Some sample_block
    /\ uuid 0 = "0_1"%string
    /\ spec_identifier 1 0 = "1_1"%string
    /\ uuid 0 <> spec_identifier 1 0.
Proof.
  eexists. eexists. split; [reflexivity|].
  repeat split. discriminate.
Qed.

(** ** The orientation decomposition *)

(** C5, as the code has it: [quat_to_euler] hands [2 (w y - z x)] to [asin]
    as it is, without clamping; the pitch is a number exactly when that
    argument lies in [-1, 1], which holds for every quaternion of norm one
    in exact arithmetic, and is [NaN] otherwise. *)
Theorem pitch_argument_is_not_clamped (w x y z : R) :
  let q := quat (Num w) (Num x) (Num y) (Num z) in
  pitch (quat_to_euler q) = Scalar.asin (Num (2 * (w * y - z * x)))
  /\ (is_number (pitch (quat_to_euler q)) <-> (-1 <= 2 * (w * y - z * x) <= 1)%R)
  /\ ((w * w + x * x + y * y + z * z = 1)%R ->
      pitch (quat_to_euler q) = Num (asin (2 * (w * y - z * x)))).
Proof.
  intros q. split; [reflexivity|]. split.
  - change (pitch (quat_to_euler q)) with (Scalar.asin (Num (2 * (w * y - z * x)))).
    split.
    + intros [r Hr].
      destruct (Rle_dec (-1) (2 * (w * y - z * x))) as [H1 | H1];
        destruct (Rle_dec (2 * (w * y - z * x)) 1) as [H2 | H2];
        try (now split);
        rewrite asin_out_of_domain in Hr by (intros [? ?]; contradiction);
        discriminate.
    + intros H. rewrite (asin_Num _ H). now eexists.
  - intros H.
    change (pitch (quat_to_euler q)) with (Scalar.asin (Num (2 * (w * y - z * x)))).
    apply asin_Num. now apply unit_quaternion_pitch_argument.
Qed.

Lemma pitch_argument_is_not_clamped_witness :
  pitch (quat_to_euler (quat (Num 1) (Num 0) (Num 0) (Num 0)))
  = Num (asin (2 * (1 * 0 - 0 * 0))).
Proof.
  apply (proj2 (proj2 (pitch_argument_is_not_clamped 1 0 0 0))). lra.
Defined.

(** C5, as the claim states it, fails: on the quaternion (1, 0, 1, 0) the
    argument of [asin] is 2 and the pitch is [NaN]. *)
Lemma unclamped_pitch_counterexample :
  pitch_argument (quat (Num 1) (Num 0) (Num 1) (Num 0)) = Num (2 * (1 * 1 - 0 * 0))
  /\ pitch (quat_to_euler (quat (Num 1) (Num 0) (Num 1) (Num 0))) = NaN.
Proof.
  split; [reflexivity|].
  change (pitch (quat_to_euler (quat (Num 1) (Num 0) (Num 1) (Num 0))))
    with (Scalar.asin (Num (2 * (1 * 1 - 0 * 0)))).
  apply asin_out_of_domain. lra.
Qed.

(** The same in binary64, at a quaternion whose squared norm evaluates to
    exactly 1: rounding alone carries the argument of [asin] above 1. *)
Example pitch_argument_above_one_in_binary64 :
  let w := 0x1.83410c6899b58p-2%float in
  let x := 0x1.31e8cf030ab12p-1%float in
  let y := 0x1.83410c6899b56p-2%float in
  let z := (-0x1.31e8cf030ab13p-1)%float in
  PrimFloat.eqb (w * w + x * x + y * y + z * z) 1 = true
  /\ PrimFloat.ltb 1 (pitch_argument_binary64 w x y z) = true.
Proof. split; reflexivity. Qed.

(** C7: the identity quaternion has roll, pitch and yaw 0, and the identity
    rotation, whose quaternion it is, looks along (1, 0, 0). *)
Theorem identity_rotation_looks_along_x :
  quat_to_euler (quat (Num 1) (Num 0) (Num 0) (Num 0)) = euler (Num 0) (Num 0) (Num 0)
  /\ Quaternion_of_matrix (rotation Isometry3_Identity)
     = quat (Num 1) (Num 0) (Num 0) (Num 0)
  /\ convertRobotPoseToSensorLookDir Isometry3_Identity
     = vec3 (Num 1) (Num 0) (Num 0).
Proof.
  split; [exact quat_to_euler_identity|].
  split; [exact Quaternion_of_identity | exact look_direction_of_identity].
Qed.

(** ** The look frame *)




Lemma norm_Zero_not_unit : ~ unit_within tolerance Zero.
Proof.
  intros [n [Hn Hle]]. unfold Zero in Hn. rewrite norm_Num in Hn.
  injection Hn as Hn.
  replace (0 * 0 + 0 * 0 + 0 * 0)%R with 0%R in Hn by ring.
  rewrite sqrt_0 in Hn. subst n.
  replace (0 - 1)%R with (- (1))%R in Hle by ring.
  rewrite Rabs_Ropp, Rabs_R1 in Hle. unfold tolerance in Hle. lra.
Qed.

Lemma look_rotation_vertical (c : R) :
  look_rotation (vec3 (Num 0) (Num 0) (Num c))
  = mat3 Zero Zero (normalized (vec3 (Num 0) (Num 0) (Num c))).
Proof.
  rewrite look_rotation_Num.
  replace (Num (- 0)) with (Num 0) by (apply Num_eq; ring).
  replace (Num (0 * c)) with (Num 0) by (apply Num_eq; ring).
  replace (Num (- (0 * 0 + 0 * 0))) with (Num 0) by (apply Num_eq; ring).
  fold Zero. unfold Zero at 1 2.
  rewrite normalized_null by lra. reflexivity.
Qed.

(** C4, as the code has it: a look direction parallel to the up axis is not
    detected and nothing is substituted.  Both cross products are null, the
    first two columns of the rotation are the null vector, so the basis is
    not orthonormal, and the cycle goes on as for any direction: the engine
    runs and this pose is published. *)
Theorem vertical_look_direction_is_not_detected
        (go : BlockFitter -> Result) (this : RobotInterface)
        (inCloud : LabeledCloud) (origin : Vector3) (a b c : R) :
  parallel_to_up a b ->
  let lookDir := vec3 (Num a) (Num b) (Num c) in
  hulls_nonempty (go (fitter_for inCloud origin lookDir)) ->
  look_rotation lookDir = mat3 Zero Zero (normalized lookDir)
  /\ ~ orthonormal_within tolerance (look_rotation lookDir)
  /\ exists published : list Event,
      processCloud go this inCloud origin lookDir
      = Some (mkRobotInterface (last_robot_pose_ this)
                               (go (fitter_for inCloud origin lookDir)),
              [fitter_go (fitter_for inCloud origin lookDir);
               look_pose_pub_
                 (PoseStamped.mk "odom" (0, 0)%Z
                    (isometry (mat3 Zero Zero (normalized lookDir)) origin));
               received_cloud_pub_ (PointCloud2.mk "odom" (0, 0)%Z inCloud)]
               ++ published).
Proof.
  intros [-> ->] lookDir Hgo.
  assert (Hrot : look_rotation lookDir = mat3 Zero Zero (normalized lookDir))
    by apply look_rotation_vertical.
  split; [exact Hrot|]. split.
  - rewrite Hrot. intros (_ & _ & _ & H0 & _). cbn [col0] in H0.
    exact (norm_Zero_not_unit H0).
  - destruct (processCloud_runs go this inCloud origin lookDir Hgo)
      as (published & Hrun & _).
    exists published. rewrite Hrun. unfold look_pose. now rewrite Hrot.
Qed.

Lemma vertical_look_direction_is_not_detected_witness :
  look_rotation UnitZ = mat3 Zero Zero (normalized UnitZ).
Proof.
  apply (vertical_look_direction_is_not_detected
           go_nothing RobotInterface_new [] Zero 0 0 1).
  - split; reflexivity.
  - constructor.
Defined.

(** C4, as the claim states it, fails on the up axis itself: no error is
    signalled and no axis substituted; the rotation comes out with two null
    columns and is not an orthonormal basis. *)
Lemma vertical_look_direction_counterexample :
  look_rotation UnitZ = mat3 Zero Zero UnitZ
  /\ ~ orthonormal_within tolerance (look_rotation UnitZ).
Proof.
  assert (H : look_rotation UnitZ = mat3 Zero Zero UnitZ).
  { unfold UnitZ at 1. rewrite look_rotation_vertical.
    rewrite normalized_Num by lra.
    replace (0 * 0 + 0 * 0 + 1 * 1)%R with 1%R by ring. rewrite sqrt_1.
    unfold UnitZ. f_equal. f_equal; apply Num_eq; field. }
  split; [exact H|].
  rewrite H. intros (_ & _ & _ & H0 & _). exact (norm_Zero_not_unit H0).
Qed.

(** ** Cycles *)

(** C2, as the code has it: [processCloud] does not look at the size of the
    cloud and raises nothing.  For every cloud, the empty one included, it
    runs the engine once on that cloud, with the given origin and look
    direction, and stores what the engine returns in [result_]. *)
Theorem processCloud_segments_every_cloud
        (go : BlockFitter -> Result) (this : RobotInterface)
        (inCloud : LabeledCloud) (origin lookDir : Vector3) :
  hulls_nonempty (go (fitter_for inCloud origin lookDir)) ->
  exists trace : list Event,
    processCloud go this inCloud origin lookDir
    = Some (mkRobotInterface (last_robot_pose_ this)
                             (go (fitter_for inCloud origin lookDir)),
            trace)
    /\ fitters trace = [fitter_for inCloud origin lookDir].
Proof.
  intros Hgo.
  destruct (processCloud_runs go this inCloud origin lookDir Hgo)
    as (published & Hrun & Hnone).
  eexists. split; [exact Hrun|].
  rewrite fitters_app, Hnone. reflexivity.
Qed.

Lemma processCloud_segments_every_cloud_witness :
  exists trace : list Event,
    processCloud go_nothing
                 (mkRobotInterface Isometry3_Identity (mkResult [sample_block]))
                 [] Zero UnitX
    = Some (mkRobotInterface Isometry3_Identity (mkResult []), trace)
    /\ fitters trace = [fitter_for [] Zero UnitX].
Proof.
  apply (processCloud_segments_every_cloud
           go_nothing (mkRobotInterface Isometry3_Identity (mkResult [sample_block]))
           [] Zero UnitX).
  constructor.
Defined.

(** C2, as the claim states it, fails: on an empty cloud the engine is run
    all the same, and the stored result is replaced by its return. *)
Lemma empty_cloud_counterexample :
  let prior := mkRobotInterface Isometry3_Identity (mkResult [sample_block]) in
  exists (this : RobotInterface) (trace : list Event),
    processCloud go_nothing prior [] Zero UnitX = Some (this, trace)
    /\ fitters trace = [fitter_for [] Zero UnitX]
    /\ result_ this = mkResult []
    /\ result_ this <> result_ prior.
Proof.
  eexists. eexists. split; [reflexivity|].
  repeat split. discriminate.
Qed.

Section Spin.

Variable go : BlockFitter -> Result.
Variable GridMap : Type.
Variable toPointCloud : GridMap -> LabeledCloud.


End Spin.



(** * Further properties *)

(** ** Angles *)

Section Angles.

Local Open Scope R_scope.

Lemma sqrt_one_plus_sqr_ratio (X Y : R) :
  X <> 0 -> sqrt (1 + (Y / X)²) = sqrt (X * X + Y * Y) / Rabs X.
Proof.
  intros HX.
  assert (HaX : 0 < Rabs X) by now apply Rabs_pos_lt.
  assert (Hn : 0 <= sqrt (X * X + Y * Y)) by apply sqrt_pos.
  apply sqrt_lem_1.
  - unfold Rsqr. pose proof (Rle_0_sqr (Y / X)) as H. unfold Rsqr in H. lra.
  - apply Rmult_le_pos; [exact Hn | left; now apply Rinv_0_lt_compat].
  - replace (sqrt (X * X + Y * Y) / Rabs X * (sqrt (X * X + Y * Y) / Rabs X))
      with (sqrt (X * X + Y * Y) * sqrt (X * X + Y * Y) / (Rabs X * Rabs X))
      by (field; lra).
    rewrite sqrt_sqrt by nra.
    replace (Rabs X * Rabs X) with (X * X)
      by (rewrite <- Rabs_mult; symmetry; apply Rabs_pos_eq; nra).
    unfold Rsqr. field. exact HX.
Qed.

(** [atan2] gives the angle of the point: cosine and sine times the
    distance give back the coordinates, the origin included. *)
Lemma atan2R_polar (Y X : R) :
  cos (Scalar.atan2R Y X) * sqrt (X * X + Y * Y) = X
  /\ sin (Scalar.atan2R Y X) * sqrt (X * X + Y * Y) = Y.
Proof.
  unfold Scalar.atan2R.
  destruct (Rlt_dec 0 X) as [Hpos | Hnpos].
  - rewrite cos_atan, sin_atan, sqrt_one_plus_sqr_ratio by lra.
    rewrite Rabs_pos_eq by lra.
    assert (Hn : 0 < sqrt (X * X + Y * Y)) by (apply sqrt_lt_R0; nra).
    split; field; lra.
  - destruct (Rlt_dec X 0) as [Hneg | Hnneg].
    + assert (Hn : 0 < sqrt (X * X + Y * Y)) by (apply sqrt_lt_R0; nra).
      assert (Habs : Rabs X = - X) by (apply Rabs_left; exact Hneg).
      destruct (Rle_dec 0 Y) as [HY | HY].
      * rewrite neg_cos, neg_sin, cos_atan, sin_atan, sqrt_one_plus_sqr_ratio by lra.
        rewrite Habs. split; field; lra.
      * rewrite cos_minus, sin_minus, cos_PI, sin_PI.
        rewrite cos_atan, sin_atan, sqrt_one_plus_sqr_ratio by lra.
        rewrite Habs. split; field; lra.
    + assert (HX : X = 0) by lra. subst X.
      replace (0 * 0 + Y * Y) with (Y * Y) by ring.
      destruct (Rlt_dec 0 Y) as [HY | HY].
      * rewrite cos_PI2, sin_PI2, sqrt_square by lra. split; ring.
      * destruct (Rlt_dec Y 0) as [HY' | HY'].
        -- replace (- PI / 2) with (- (PI / 2)) by field.
           rewrite cos_neg, sin_neg, cos_PI2, sin_PI2.
           replace (Y * Y) with (- Y * - Y) by ring.
           rewrite sqrt_square by lra. split; ring.
        -- assert (Y = 0) by lra. subst Y.
           rewrite cos_0, sin_0. replace (0 * 0) with 0 by ring.
           rewrite sqrt_0. split; ring.
Qed.

Lemma atan2R_range (Y X : R) : - PI < Scalar.atan2R Y X <= PI.
Proof.
  pose proof PI_RGT_0 as Hpi.
  pose proof (atan_bound (Y / X)) as Hb.
  unfold Scalar.atan2R.
  destruct (Rlt_dec 0 X) as [Hpos | Hnpos]; [lra|].
  destruct (Rlt_dec X 0) as [Hneg | Hnneg].
  - destruct (Rle_dec 0 Y) as [HY | HY].
    + assert (Hq : Y / X <= 0).
      { pose proof (Rinv_lt_0_compat X Hneg). unfold Rdiv. nra. }
      destruct Hq as [Hq | Hq].
      * pose proof (atan_increasing _ _ Hq) as Hinc. rewrite atan_0 in Hinc. lra.
      * rewrite Hq, atan_0. lra.
    + assert (Hq : 0 < Y / X).
      { pose proof (Rinv_lt_0_compat X Hneg). unfold Rdiv. nra. }
      pose proof (atan_increasing _ _ Hq) as Hinc. rewrite atan_0 in Hinc. lra.
  - destruct (Rlt_dec 0 Y); [lra|]. destruct (Rlt_dec Y 0); lra.
Qed.

End Angles.

(** ** The look direction of a pose *)

Section LookDirection.

Local Open Scope R_scope.

Lemma unit_quaternion_x_axis (w x y z : R) :
  w * w + x * x + y * y + z * z = 1 ->
  1 - (2 * (w * y - z * x))²
  = (1 - 2 * (y * y + z * z)) * (1 - 2 * (y * y + z * z))
    + 2 * (w * z + x * y) * (2 * (w * z + x * y)).
Proof.
  intros H. unfold Rsqr.
  replace (1 - 2 * (y * y + z * z)) with (w * w + x * x - y * y - z * z) by lra.
  replace 1 with ((w * w + x * x + y * y + z * z) * (w * w + x * x + y * y + z * z))
    by (rewrite H; ring).
  ring.
Qed.

(** The look direction computed from a quaternion with real components. *)
Lemma look_direction_Num (robot_pose : Isometry3) (w x y z : R) :
  Quaternion_of_matrix (rotation robot_pose) = quat (Num w) (Num x) (Num y) (Num z) ->
  -1 <= 2 * (w * y - z * x) <= 1 ->
  convertRobotPoseToSensorLookDir robot_pose
  = vec3 (Num (cos (Scalar.atan2R (2 * (w * z + x * y)) (1 - 2 * (y * y + z * z)))
               * cos (- asin (2 * (w * y - z * x)))))
         (Num (sin (Scalar.atan2R (2 * (w * z + x * y)) (1 - 2 * (y * y + z * z)))
               * cos (- asin (2 * (w * y - z * x)))))
         (Num (sin (- asin (2 * (w * y - z * x))))).
Proof.
  intros Hq Hu. unfold convertRobotPoseToSensorLookDir. rewrite Hq.
  unfold quat_to_euler. rewrite pitch_argument_Num, (asin_Num _ Hu).
  reflexivity.
Qed.

(** The look direction is the x axis of the robot seen from the world. *)
Lemma look_direction_is_x_axis (robot_pose : Isometry3) (w x y z : R) :
  Quaternion_of_matrix (rotation robot_pose) = quat (Num w) (Num x) (Num y) (Num z) ->
  w * w + x * x + y * y + z * z = 1 ->
  convertRobotPoseToSensorLookDir robot_pose = x_axis_of w x y z.
Proof.
  intros Hq Hunit.
  pose proof (unit_quaternion_pitch_argument w x y z Hunit) as Hu.
  rewrite (look_direction_Num robot_pose w x y z Hq Hu).
  rewrite cos_neg, sin_neg, cos_asin, sin_asin by exact Hu.
  rewrite (unit_quaternion_x_axis w x y z Hunit).
  destruct (atan2R_polar (2 * (w * z + x * y)) (1 - 2 * (y * y + z * z))) as [Hc Hs].
  rewrite Hc, Hs. unfold x_axis_of.
  f_equal; apply Num_eq; ring.
Qed.

End LookDirection.

Section Yaw.

Local Open Scope R_scope.

(** Eigen's quaternion of a rotation about the up axis, on either branch of
    the conversion. *)
Lemma Quaternion_of_yaw (c s : R) :
  c * c + s * s = 1 ->
  exists w z : R,
    Quaternion_of_matrix (yaw_rotation c s) = quat (Num w) (Num 0) (Num 0) (Num z)
    /\ w * w + z * z = 1
    /\ 1 - 2 * (z * z) = c
    /\ 2 * (w * z) = s.
Proof.
  intros Hcs.
  assert (Hc : -1 <= c <= 1) by (split; nra).
  unfold Quaternion_of_matrix.
  assert (Ht : trace (yaw_rotation c s) = Num (c + c + 1)) by reflexivity.
  rewrite Ht.
  destruct (Rlt_dec 0 (c + c + 1)) as [Hpos | Hnpos].
  - rewrite gtb_Num_true by exact Hpos.
    change (Num (c + c + 1) + Num 1)%scalar with (Num (c + c + 1 + 1)).
    rewrite sqrt_Num by lra.
    set (T := sqrt (c + c + 1 + 1)).
    assert (HT : 0 < T) by (apply sqrt_lt_R0; lra).
    assert (HTT : T * T = c + c + 1 + 1) by (apply sqrt_sqrt; lra).
    rewrite div_Num by lra.
    exists (1 / 2 * T), ((s - - s) * (1 / 2 / T)).
    split.
    { cbn. replace ((0 - 0) * (1 / 2 / T)) with 0 by ring. reflexivity. }
    assert (Hz : (s - - s) * (1 / 2 / T) = s / T) by (field; lra).
    rewrite Hz.
    assert (Hzz : s / T * (s / T) = (1 - c) / 2).
    { replace (s / T * (s / T)) with (s * s / (T * T)) by (field; lra).
      rewrite HTT. replace (s * s) with ((1 - c) * (1 + c)) by nra. field. lra. }
    split; [|split].
    + rewrite Hzz. replace (1 / 2 * T * (1 / 2 * T)) with (T * T / 4) by field.
      rewrite HTT. field.
    + rewrite Hzz. field.
    + field. lra.
  - rewrite gtb_Num_false by lra. cbv zeta.
    change (coeff (yaw_rotation c s) 1 1) with (Num c).
    change (coeff (yaw_rotation c s) 0 0) with (Num c).
    rewrite (gtb_Num_false c c) by lra.
    change (coeff (yaw_rotation c s) 2 2) with (Num 1).
    change (coeff (yaw_rotation c s) 0 0) with (Num c).
    rewrite (gtb_Num_true 1 c) by lra.
    cbn [coeff component column yaw_rotation col0 col1 col2 vx vy vz
         Scalar.sub Scalar.add Scalar.lift2 Nat.modulo Nat.divmod Nat.add Nat.sub
         fst snd].
    rewrite sqrt_Num by lra.
    set (T := sqrt (1 - c - c + 1)).
    assert (HT : 0 < T) by (apply sqrt_lt_R0; lra).
    assert (HTT : T * T = 1 - c - c + 1) by (apply sqrt_sqrt; lra).
    rewrite div_Num by lra.
    cbn [set_coeff qw qx qy qz Scalar.mul Scalar.lift2].
    exists ((s - - s) * (1 / 2 / T)), (1 / 2 * T).
    split.
    { replace ((0 + 0) * (1 / 2 / T)) with 0 by ring. reflexivity. }
    assert (Hw : (s - - s) * (1 / 2 / T) = s / T) by (field; lra).
    rewrite Hw.
    assert (Hww : s / T * (s / T) = (1 + c) / 2).
    { replace (s / T * (s / T)) with (s * s / (T * T)) by (field; lra).
      rewrite HTT. replace (s * s) with ((1 - c) * (1 + c)) by nra. field. lra. }
    split; [|split].
    + rewrite Hww. replace (1 / 2 * T * (1 / 2 * T)) with (T * T / 4) by field.
      rewrite HTT. field.
    + replace (1 / 2 * T * (1 / 2 * T)) with (T * T / 4) by field.
      rewrite HTT. field.
    + field. lra.
Qed.

Lemma look_direction_of_yaw (c s : R) (position : Vector3) :
  c * c + s * s = 1 ->
  convertRobotPoseToSensorLookDir (isometry (yaw_rotation c s) position)
  = vec3 (Num c) (Num s) (Num 0).
Proof.
  intros Hcs.
  destruct (Quaternion_of_yaw c s Hcs) as (w & z & Hq & Hunit & Hx & Hy).
  rewrite (look_direction_is_x_axis (isometry (yaw_rotation c s) position) w 0 0 z Hq)
    by lra.
  unfold x_axis_of.
  replace (1 - 2 * (0 * 0 + z * z)) with c by lra.
  replace (2 * (0 * 0 + w * z)) with s by lra.
  replace (2 * (0 * z - w * 0)) with 0 by ring.
  reflexivity.
Qed.

End Yaw.

(** X1: for a pose whose quaternion has real components and norm one, the
    look direction is the first column of the rotation matrix of that
    quaternion: the x axis of the robot seen from the world. *)
Theorem look_direction_is_robot_x_axis (robot_pose : Isometry3) (w x y z : R) :
  Quaternion_of_matrix (rotation robot_pose) = quat (Num w) (Num x) (Num y) (Num z) ->
  (w * w + x * x + y * y + z * z = 1)%R ->
  convertRobotPoseToSensorLookDir robot_pose
  = vec3 (Num (1 - 2 * (y * y + z * z)))
         (Num (2 * (x * y + w * z)))
         (Num (2 * (x * z - w * y))).
Proof. exact (look_direction_is_x_axis robot_pose w x y z). Qed.

Lemma look_direction_is_robot_x_axis_witness :
  convertRobotPoseToSensorLookDir Isometry3_Identity
  = vec3 (Num (1 - 2 * (0 * 0 + 0 * 0)))
         (Num (2 * (0 * 0 + 1 * 0)))
         (Num (2 * (0 * 0 - 1 * 0))).
Proof.
  apply (look_direction_is_robot_x_axis Isometry3_Identity 1 0 0 0).
  - exact Quaternion_of_identity.
  - lra.
Defined.

(** X2: whatever the quaternion of the pose, the look direction is either a
    vector of norm exactly one (no renormalisation is needed) or, when the
    argument of [asin] leaves [-1, 1], the vector of three [NaN]. *)
Theorem look_direction_is_unit_or_NaN (robot_pose : Isometry3) (w x y z : R) :
  Quaternion_of_matrix (rotation robot_pose) = quat (Num w) (Num x) (Num y) (Num z) ->
  ((-1 <= 2 * (w * y - z * x) <= 1)%R ->
   squaredNorm (convertRobotPoseToSensorLookDir robot_pose) = Num 1)
  /\ (~ (-1 <= 2 * (w * y - z * x) <= 1)%R ->
      convertRobotPoseToSensorLookDir robot_pose = vec3 NaN NaN NaN).
Proof.
  intros Hq. split.
  - intros Hu. rewrite (look_direction_Num robot_pose w x y z Hq Hu).
    set (psi := Scalar.atan2R (2 * (w * z + x * y)) (1 - 2 * (y * y + z * z))).
    set (theta := (- asin (2 * (w * y - z * x)))%R).
    unfold squaredNorm. rewrite dot_Num. apply Num_eq.
    pose proof (sin2_cos2 psi) as Hpsi. pose proof (sin2_cos2 theta) as Htheta.
    unfold Rsqr in Hpsi, Htheta.
    set (cp := cos psi) in *. set (sp := sin psi) in *.
    set (ct := cos theta) in *. set (st := sin theta) in *.
    replace (cp * ct * (cp * ct) + sp * ct * (sp * ct) + st * st)%R
      with (ct * ct * (sp * sp + cp * cp) + st * st)%R by ring.
    rewrite Hpsi. lra.
  - intros Hu. unfold convertRobotPoseToSensorLookDir. rewrite Hq.
    unfold quat_to_euler. rewrite pitch_argument_Num, (asin_out_of_domain _ Hu).
    reflexivity.
Qed.

Lemma look_direction_is_unit_or_NaN_witness :
  squaredNorm (convertRobotPoseToSensorLookDir Isometry3_Identity) = Num 1.
Proof.
  apply (proj1 (look_direction_is_unit_or_NaN Isometry3_Identity 1 0 0 0
                  Quaternion_of_identity)).
  lra.
Defined.

(** X3: a quaternion and its opposite, which stand for the same rotation,
    get the same roll, pitch and yaw.  The components are taken non-zero:
    the opposite in the model is then the opposite in the arithmetic of the
    code, where a zero has a sign of its own. *)
Theorem quat_to_euler_of_opposite (w x y z : R) :
  w <> 0%R -> x <> 0%R -> y <> 0%R -> z <> 0%R ->
  quat_to_euler (quat (Num (- w)) (Num (- x)) (Num (- y)) (Num (- z)))
  = quat_to_euler (quat (Num w) (Num x) (Num y) (Num z)).
Proof.
  intros _ _ _ _.
  unfold quat_to_euler. rewrite !pitch_argument_Num.
  cbn [qw qx qy qz Scalar.atan2 Scalar.lift2 Scalar.mul Scalar.add Scalar.sub].
  replace (2 * (- w * - x + - y * - z))%R with (2 * (w * x + y * z))%R by ring.
  replace (1 - 2 * (- x * - x + - y * - y))%R with (1 - 2 * (x * x + y * y))%R by ring.
  replace (2 * (- w * - y - - z * - x))%R with (2 * (w * y - z * x))%R by ring.
  replace (2 * (- w * - z + - x * - y))%R with (2 * (w * z + x * y))%R by ring.
  replace (1 - 2 * (- y * - y + - z * - z))%R with (1 - 2 * (y * y + z * z))%R by ring.
  reflexivity.
Qed.

Lemma quat_to_euler_of_opposite_witness :
  quat_to_euler (quat (Num (- (1))) (Num (- (2))) (Num (- (3))) (Num (- (4))))
  = quat_to_euler (quat (Num 1) (Num 2) (Num 3) (Num 4)).
Proof.
  apply (quat_to_euler_of_opposite 1 2 3 4); lra.
Defined.

Lemma atan2_NaN_or_within (a b : scalar) : NaN_or_within PI (Scalar.atan2 a b).
Proof.
  destruct a as [y|], b as [x|]; try (left; reflexivity).
  right. exists (Scalar.atan2R y x). split; [reflexivity|].
  split; [apply Rlt_le|]; apply atan2R_range.
Qed.

Lemma asin_NaN_or_within (a : scalar) : NaN_or_within (PI / 2) (Scalar.asin a).
Proof.
  destruct a as [x|]; [|left; reflexivity].
  unfold Scalar.asin.
  destruct (Rle_dec (-1) x); [|left; reflexivity].
  destruct (Rle_dec x 1); [|left; reflexivity].
  right. exists (asin x). split; [reflexivity | apply asin_bound].
Qed.

(** X4: whatever the quaternion, roll and yaw are each [NaN] or a number
    in [-pi, pi], and the pitch is [NaN] or a number in [-pi/2, pi/2]. *)
Theorem euler_angles_ranges (q : Quaternion) :
  NaN_or_within PI (roll (quat_to_euler q))
  /\ NaN_or_within (PI / 2) (pitch (quat_to_euler q))
  /\ NaN_or_within PI (yaw (quat_to_euler q)).
Proof.
  unfold quat_to_euler. cbn [roll pitch yaw].
  split; [apply atan2_NaN_or_within|].
  split; [apply asin_NaN_or_within | apply atan2_NaN_or_within].
Qed.

(** X5: a level robot heading along (c, s), that is a pose whose rotation
    is the rotation about the up axis of cosine [c] and sine [s], looks
    along (c, s, 0), on both branches of Eigen's matrix-to-quaternion
    conversion. *)
Theorem level_robot_looks_along_its_heading (c s : R) (position : Vector3) :
  (c * c + s * s = 1)%R ->
  convertRobotPoseToSensorLookDir (isometry (yaw_rotation c s) position)
  = vec3 (Num c) (Num s) (Num 0).
Proof. exact (look_direction_of_yaw c s position). Qed.

Lemma level_robot_looks_along_its_heading_witness :
  convertRobotPoseToSensorLookDir (isometry (yaw_rotation (-1) 0) Zero)
  = vec3 (Num (-1)) (Num 0) (Num 0).
Proof.
  apply (level_robot_looks_along_its_heading (-1) 0 Zero). lra.
Defined.

(** X20: in the binary32 arithmetic of the code, a look direction along the
    up axis, that is with zeros of either sign for x and y and any finite
    z, gives a frame whose first two columns are null: both cross products
    are exactly null and [normalized] returns them as they are. *)
Theorem vertical_look_direction_gives_null_axes_in_binary32
        (sx sy sz : bool) (mz : positive) (ez : Z) :
  let lookDir :=
    Float32.vec3f (S754_zero sx) (S754_zero sy) (S754_finite sz mz ez) in
  is_null (Float32.fcol0 (look_rotation_binary32 lookDir))
  /\ is_null (Float32.fcol1 (look_rotation_binary32 lookDir)).
Proof.
  intros lookDir. unfold lookDir, is_null.
  destruct sx, sy, sz; split; do 3 eexists; reflexivity.
Qed.

(** ** More on the two publishers *)

Lemma length_vertices_of {A : Type} (segs : list (A * A)) :
  List.length (vertices segs) = (2 * List.length segs)%nat.
Proof.
  induction segs as [|s segs IH]; cbn [vertices flat_map List.length app] in *.
  - reflexivity.
  - unfold vertices in IH. rewrite IH. lia.
Qed.

Lemma length_loops (hulls : list HullCloud) :
  List.length (List.concat (map (fun h => line_loop (map to_Point h)) hulls))
  = List.length (List.concat hulls).
Proof.
  induction hulls as [|h rest IH]; cbn [map List.concat]; [reflexivity|].
  now rewrite !length_app, IH, length_line_loop, length_map.
Qed.

Lemma length_vertex_colours (hulls : list HullCloud) :
  forall i : nat,
    List.length (vertex_colours_from i hulls) = (2 * List.length (List.concat hulls))%nat.
Proof.
  induction hulls as [|h rest IH]; intros i; cbn [vertex_colours_from List.concat].
  - reflexivity.
  - rewrite !length_app, repeat_length, IH. lia.
Qed.

Lemma alpha_to_ColorRGBA (rgb : float * float * float) :
  ColorRGBA.a (to_ColorRGBA rgb) = 1%float.
Proof. destruct rgb as [[r g] b]. reflexivity. Qed.

Lemma vertex_colours_opaque (hulls : list HullCloud) :
  forall i : nat,
    Forall (fun c => ColorRGBA.a c = 1%float) (vertex_colours_from i hulls).
Proof.
  induction hulls as [|h rest IH]; intros i; cbn [vertex_colours_from].
  - constructor.
  - apply Forall_app. split; [|apply IH].
    apply Forall_forall. intros c Hc. apply repeat_spec in Hc. subst c.
    apply alpha_to_ColorRGBA.
Qed.

(** The marker of hulls that all have a point, as a value. *)
Lemma publishHullsAsMarkers_value (hulls : list HullCloud) (secs nsecs : Z) :
  Forall nonempty hulls ->
  publishHullsAsMarkers hulls secs nsecs
  = Some (Marker.set_frame_locked
            (Marker.extend (marker_header secs nsecs)
               (vertex_colours_from 0 hulls)
               (vertices (List.concat (map (fun h => line_loop (map to_Point h)) hulls))))
            true).
Proof.
  intros H. unfold publishHullsAsMarkers.
  rewrite (marker_loop_appends hulls H). cbn [bind].
  now rewrite vertex_colours_combine.
Qed.

Lemma coordinates_coloured_from (hulls : list HullCloud) :
  forall i : nat, map xyz_rgb (coloured_from i hulls) = map xyz (List.concat hulls).
Proof.
  induction hulls as [|h rest IH]; intros i; cbn [coloured_from List.concat].
  - reflexivity.
  - rewrite !map_app, IH, map_map. f_equal.
    apply map_ext. intros p. unfold coloured.
    destruct (scaled (color i)) as [[r g] b]. reflexivity.
Qed.

Lemma hull_rgb_mod (i : nat) : hull_rgb i = hull_rgb (i mod 28).
Proof.
  unfold hull_rgb. rewrite (nColor_mod i), (nColor_mod (i mod 28)).
  now rewrite Nat.Div0.mod_mod.
Qed.

(** Within the range where an [int] passes unchanged into [uint32_t] and
    the nanoseconds are below one second, [ros::Time] keeps its arguments. *)
Lemma ros_Time_in_range (secs nsecs : Z) :
  (0 <= secs < 2 ^ 31)%Z -> (0 <= nsecs < 10 ^ 9)%Z ->
  ros_Time secs nsecs = (secs, nsecs).
Proof.
  intros Hs Hn. unfold ros_Time, to_uint32_t.
  change (10 ^ 9)%Z with 1000000000%Z in Hn.
  assert (H31 : (2 ^ 31 = 2147483648)%Z) by reflexivity.
  assert (H32 : (2 ^ 32 = 4294967296)%Z) by reflexivity.
  rewrite H31 in Hs. rewrite H32.
  rewrite (Z.mod_small secs) by lia. rewrite (Z.mod_small nsecs) by lia.
  rewrite (Z.div_small nsecs) by lia. rewrite (Z.mod_small nsecs) by lia.
  now rewrite Z.add_0_r.
Qed.

(** X8: when every hull has a point, the marker is a well-formed line
    list: as many colours as vertices, two vertices per hull point, every
    colour opaque, and the header of a frame-locked LINE_LIST to ADD in
    frame odom; for seconds an [int] holds without sign and nanoseconds
    below one second, the stamp is the pair given. *)
Theorem marker_is_a_well_formed_line_list (hulls : list HullCloud) (secs nsecs : Z) :
  Forall nonempty hulls ->
  exists marker : Marker.t,
    publishHullsAsMarkers hulls secs nsecs = Some marker
    /\ List.length (Marker.points marker) = (2 * List.length (List.concat hulls))%nat
    /\ List.length (Marker.colors marker) = List.length (Marker.points marker)
    /\ Forall (fun c => ColorRGBA.a c = 1%float) (Marker.colors marker)
    /\ Marker.type marker = LINE_LIST
    /\ Marker.action marker = ADD
    /\ Marker.frame_id marker = "odom"%string
    /\ ((0 <= secs < 2 ^ 31)%Z -> (0 <= nsecs < 10 ^ 9)%Z ->
        Marker.stamp marker = (secs, nsecs))
    /\ Marker.frame_locked marker = true.
Proof.
  intros H. rewrite (publishHullsAsMarkers_value hulls secs nsecs H).
  eexists. split; [reflexivity|].
  cbn [Marker.set_frame_locked Marker.extend Marker.points Marker.colors Marker.type
       Marker.action Marker.frame_id Marker.stamp Marker.frame_locked marker_header app].
  assert (Hp : List.length
                 (vertices (List.concat (map (fun h => line_loop (map to_Point h)) hulls)))
               = (2 * List.length (List.concat hulls))%nat)
    by now rewrite length_vertices_of, length_loops.
  split; [exact Hp|].
  split; [now rewrite Hp, length_vertex_colours|].
  split; [apply vertex_colours_opaque|].
  split; [reflexivity|]. split; [reflexivity|]. split; [reflexivity|].
  split; [apply ros_Time_in_range | reflexivity].
Qed.

Lemma marker_is_a_well_formed_line_list_witness :
  exists marker : Marker.t,
    publishHullsAsMarkers two_hulls 7 9 = Some marker
    /\ List.length (Marker.points marker) = 8%nat
    /\ Marker.stamp marker = (7, 9)%Z.
Proof.
  destruct (marker_is_a_well_formed_line_list two_hulls 7 9)
    as (marker & Hrun & Hlen & _ & _ & _ & _ & _ & Hstamp & _).
  - repeat constructor; discriminate.
  - exists marker. split; [exact Hrun|]. split; [exact Hlen|].
    apply Hstamp; [split; [lia | reflexivity] | split; [lia | reflexivity]].
Defined.

Lemma publishHullsAsCloud_coordinates (hulls : list HullCloud) (secs nsecs : Z) :
  map xyz_rgb (PointCloud2.points (publishHullsAsCloud hulls secs nsecs))
  = map xyz (List.concat hulls).
Proof.
  unfold publishHullsAsCloud. cbn [PointCloud2.points].
  rewrite cloud_loop_coloured. cbn [app]. apply coordinates_coloured_from.
Qed.

Lemma publishHullsAsCloud_length (hulls : list HullCloud) (secs nsecs : Z) :
  List.length (PointCloud2.points (publishHullsAsCloud hulls secs nsecs))
  = List.length (List.concat hulls).
Proof.
  rewrite <- (length_map xyz_rgb), publishHullsAsCloud_coordinates. apply length_map.
Qed.

(** X9: the combined cloud keeps the coordinates of every hull point, in
    the order of the hulls and of their points, adds none and drops none,
    hulls without points included; its header is frame odom and, for
    seconds an [int] holds without sign and nanoseconds below one second,
    the stamp given. *)
Theorem combined_cloud_keeps_every_point (hulls : list HullCloud) (secs nsecs : Z) :
  let output := publishHullsAsCloud hulls secs nsecs in
  map xyz_rgb (PointCloud2.points output) = map xyz (List.concat hulls)
  /\ List.length (PointCloud2.points output) = List.length (List.concat hulls)
  /\ PointCloud2.frame_id output = "odom"%string
  /\ ((0 <= secs < 2 ^ 31)%Z -> (0 <= nsecs < 10 ^ 9)%Z ->
      PointCloud2.stamp output = (secs, nsecs)).
Proof.
  intros output. split; [apply publishHullsAsCloud_coordinates|].
  split; [apply publishHullsAsCloud_length|]. split; [reflexivity|].
  apply ros_Time_in_range.
Qed.

Lemma combined_cloud_keeps_every_point_witness :
  map xyz_rgb (PointCloud2.points (publishHullsAsCloud two_hulls 7 9))
  = map xyz (List.concat two_hulls)
  /\ PointCloud2.stamp (publishHullsAsCloud two_hulls 7 9) = (7, 9)%Z.
Proof.
  destruct (combined_cloud_keeps_every_point two_hulls 7 9)
    as (Hxyz & _ & _ & Hstamp).
  split; [exact Hxyz|].
  apply Hstamp; [split; [lia | reflexivity] | split; [lia | reflexivity]].
Defined.

(** X10: for every hull index, the three doubles the node computes lie in
    [0, 255], so their conversion to [uint8_t] is defined, and the [float]
    channels of the marker hold them without rounding. *)
Theorem hull_channels_are_exact (i : nat) :
  exact_channel (fst (fst (hull_rgb i)))
  /\ exact_channel (snd (fst (hull_rgb i)))
  /\ exact_channel (snd (hull_rgb i)).
Proof.
  rewrite hull_rgb_mod.
  assert (Hk : (i mod 28 < 28)%nat) by (apply Nat.mod_upper_bound; lia).
  set (k := (i mod 28)%nat) in *. clearbody k.
  do 28 (destruct k as [|k];
         [vm_compute; repeat split; reflexivity|]).
  lia.
Qed.

(** X11: a table entry written as a byte over 255.0 comes back as that very
    byte in the cloud: for every [k] in 0..255, truncating
    [(k / 255.0) * 255.0] gives [k]. *)
Theorem byte_entries_round_trip (k : Z) :
  (0 <= k <= 255)%Z ->
  double_to_uint8 (byte_double k / 255.0 * 255.0)%float = k.
Proof.
  intros Hk.
  assert (Hall : forallb (fun n => Z.eqb (double_to_uint8
                                            (byte_double (Z.of_nat n) / 255.0 * 255.0)%float)
                                         (Z.of_nat n))
                         (seq 0 256) = true) by (vm_compute; reflexivity).
  rewrite forallb_forall in Hall.
  specialize (Hall (Z.to_nat k)).
  rewrite Z2Nat.id in Hall by lia.
  apply Z.eqb_eq, Hall, in_seq. lia.
Qed.

Lemma byte_entries_round_trip_witness :
  double_to_uint8 (byte_double 51 / 255.0 * 255.0)%float = 51%Z.
Proof.
  apply (byte_entries_round_trip 51). lia.
Defined.

(** ** More on cycles *)



Section Queue.

Variable go : BlockFitter -> Result.
Variable GridMap : Type.
Variable toPointCloud : GridMap -> LabeledCloud.

Hypothesis go_hulls : forall fitter, hulls_nonempty (go fitter).



End Queue.

(** X12: one cycle, whatever the cloud: after the engine call and the
    replacement of [result_], exactly four messages are published, in this
    order and all in frame odom at stamp 0: the look pose at the given
    origin, the input cloud unchanged, the hulls of the new result as one
    cloud and the same hulls as a line list. *)
Theorem processCloud_publishes_four_messages
        (go : BlockFitter -> Result) (this : RobotInterface)
        (inCloud : LabeledCloud) (origin lookDir : Vector3) :
  let fitter := fitter_for inCloud origin lookDir in
  let hulls := map hull_cloud (mBlocks (go fitter)) in
  hulls_nonempty (go fitter) ->
  exists marker : Marker.t,
    publishHullsAsMarkers hulls 0 0 = Some marker
    /\ processCloud go this inCloud origin lookDir
       = Some (mkRobotInterface (last_robot_pose_ this) (go fitter),
               [fitter_go fitter;
                look_pose_pub_
                  (PoseStamped.mk "odom" (0, 0)%Z (isometry (look_rotation lookDir) origin));
                received_cloud_pub_ (PointCloud2.mk "odom" (0, 0)%Z inCloud);
                hull_cloud_pub_ (publishHullsAsCloud hulls 0 0);
                hull_markers_pub_ marker])
    /\ List.length (PointCloud2.points (publishHullsAsCloud hulls 0 0))
       = List.length (List.concat (map mHull (mBlocks (go fitter)))).
Proof.
  intros fitter hulls Hgo.
  destruct (publishHullsAsMarkers_closed_form hulls 0 0 (hull_clouds_nonempty _ Hgo))
    as (marker & Hrun & _).
  exists marker. split; [exact Hrun|]. split.
  - unfold processCloud, publishResult. fold (fitter_for inCloud origin lookDir).
    fold fitter. cbn [result_]. fold hulls. rewrite Hrun. reflexivity.
  - rewrite publishHullsAsCloud_length. unfold hulls.
    clear. induction (mBlocks (go fitter)) as [|block rest IH]; [reflexivity|].
    cbn [map List.concat]. rewrite !length_app, IH.
    unfold hull_cloud. now rewrite length_map.
Qed.

Lemma processCloud_publishes_four_messages_witness :
  exists marker : Marker.t,
    publishHullsAsMarkers (map hull_cloud [sample_block]) 0 0 = Some marker
    /\ processCloud go_sample RobotInterface_new [] Zero UnitX
       = Some (mkRobotInterface Isometry3_Identity (mkResult [sample_block]),
               [fitter_go (fitter_for [] Zero UnitX);
                look_pose_pub_
                  (PoseStamped.mk "odom" (0, 0)%Z (isometry (look_rotation UnitX) Zero));
                received_cloud_pub_ (PointCloud2.mk "odom" (0, 0)%Z []);
                hull_cloud_pub_ (publishHullsAsCloud (map hull_cloud [sample_block]) 0 0);
                hull_markers_pub_ marker]).
Proof.
  destruct (processCloud_publishes_four_messages go_sample RobotInterface_new [] Zero UnitX)
    as (marker & Hmarker & Hrun & _).
  - repeat constructor. discriminate.
  - exists marker. split; [exact Hmarker | exact Hrun].
Defined.





(** ** Identifiers *)

Lemma to_int_not_nil (n : Z) :
  Z.to_int n <> Decimal.Pos Decimal.Nil /\ Z.to_int n <> Decimal.Neg Decimal.Nil.
Proof.
  destruct n as [|p|p]; cbn [Z.to_int]; split; try discriminate;
    intros [= H]; exact (DecimalPos.Unsigned.to_uint_nonnil p H).
Qed.

(** [std::to_string] on an [int] can be read back. *)
Lemma to_string_read_back (n : Z) :
  DecimalString.NilZero.int_of_string (to_string n) = Some (Z.to_int n).
Proof.
  unfold to_string. destruct (to_int_not_nil n) as [Hp Hn].
  now apply DecimalString.NilZero.isi.
Qed.

Lemma to_string_inj (n m : Z) : to_string n = to_string m -> n = m.
Proof.
  intros H. apply DecimalZ.to_int_inj.
  pose proof (to_string_read_back n) as Hn.
  rewrite H, to_string_read_back in Hn. now injection Hn.
Qed.

(** X15: no two blocks of a dump share an identifier: the identifiers of
    two different block indices are different strings. *)
Theorem distinct_blocks_get_distinct_identifiers (i j : nat) :
  i <> j -> uuid i <> uuid j.
Proof.
  unfold uuid. intros Hij H. injection H as H.
  apply to_string_inj in H. lia.
Qed.

Lemma distinct_blocks_get_distinct_identifiers_witness : uuid 0 <> uuid 1.
Proof. apply (distinct_blocks_get_distinct_identifiers 0 1). discriminate. Defined.

(** ** Recorded data sets *)

Section Find.

Local Open Scope string_scope.

Lemma find_cons (p : string) (b : ascii) (s : string) :
  find p (String b s)
  = if prefix p (String b s) then Some 0%nat else option_map S (find p s).
Proof.
  unfold find. cbn [index]. destruct (prefix p (String b s)); [reflexivity|].
  destruct (index 0 p s); reflexivity.
Qed.

Lemma contains_cons (p : string) (b : ascii) (s : string) :
  contains p (String b s) = prefix p (String b s) || contains p s.
Proof.
  unfold contains. rewrite find_cons.
  destruct (prefix p (String b s)); [reflexivity|].
  destruct (find p s); reflexivity.
Qed.

Lemma prefix_empty (s : string) : prefix "" s = true.
Proof. now destruct s. Qed.

Lemma prefix_app (p s t : string) : prefix p s = true -> prefix p (s ++ t) = true.
Proof.
  revert s. induction p as [|a p IH]; intros s H; [apply prefix_empty|].
  destruct s as [|b s]; [discriminate|].
  cbn [append prefix] in *. destruct (ascii_dec a b); [now apply IH | discriminate].
Qed.

(** A pattern without the character [c] cannot start before a [c] and run
    over it. *)
Lemma prefix_stops_at (p s : string) (c : ascii) (t : string) :
  occurs c p = false -> prefix p (s ++ String c t) = prefix p s.
Proof.
  revert s. induction p as [|a p IH]; intros s Hc; [now rewrite !prefix_empty|].
  cbn [occurs] in Hc. apply orb_false_elim in Hc. destruct Hc as [Hca Hcp].
  destruct s as [|b s]; cbn [append prefix].
  - destruct (ascii_dec a c) as [-> | Hne]; [|reflexivity].
    now rewrite Ascii.eqb_refl in Hca.
  - destruct (ascii_dec a b); [now apply IH | reflexivity].
Qed.

(** Occurrences in a path made of two parts, the second one starting with
    a character the pattern does not have: they are in one part or in the
    other. *)
Lemma contains_app (p h : string) (c : ascii) (t : string) :
  occurs c p = false ->
  contains p (h ++ String c t) = contains p h || contains p (String c t).
Proof.
  intros Hc. induction h as [|b h IH].
  - cbn [append]. unfold contains at 2, find. destruct p as [|a p].
    + cbn [index]. rewrite contains_cons. reflexivity.
    + reflexivity.
  - cbn [append].
    rewrite (contains_cons p b (h ++ String c t)), (contains_cons p b h), IH.
    change (String b (h ++ String c t)) with (String b h ++ String c t).
    rewrite (prefix_stops_at p (String b h) c t Hc).
    now rewrite orb_assoc.
Qed.

End Find.

Section FromFileFacts.

Variable go : BlockFitter -> Result.
Variable home_dir : string.
Variable loadPLYFile : string -> LabeledCloud.
Variable loadPCDFile : string -> LabeledCloud.

Local Open Scope string_scope.

(** The choice of the reader, by what the path contains. *)
Lemma processFromFile_reader (this : RobotInterface) (test_example : Z) :
  let inFile := fst (test_case home_dir test_example) in
  let vectors := snd (test_case home_dir test_example) in
  let banner :=
    [newline ++ "Processing test example " ++ to_string test_example ++ newline;
     inFile ++ newline] in
  processFromFile go home_dir loadPLYFile loadPCDFile this test_example
  = if contains ".ply" inFile then
      mkRun (List.app banner ["readply" ++ newline])
            (do v <- vectors; processCloud go this (loadPLYFile inFile) (fst v) (snd v))
    else if contains ".pcd" inFile then
      mkRun (List.app banner ["readpcd" ++ newline])
            (do v <- vectors; processCloud go this (loadPCDFile inFile) (fst v) (snd v))
    else
      mkRun (List.app banner ["extension not understood" ++ newline]) (Some (this, [])).
Proof.
  intros inFile vectors banner.
  unfold processFromFile, contains. fold inFile. fold vectors. fold banner.
  destruct (find ".ply" inFile); [reflexivity|].
  destruct (find ".pcd" inFile); reflexivity.
Qed.

Lemma test_case_unknown (test_example : Z) :
  (test_example < 0 \/ 5 < test_example)%Z ->
  test_case home_dir test_example = ("", None).
Proof.
  intros H. unfold test_case.
  repeat match goal with
         | |- context [(test_example =? ?k)%Z] =>
             destruct (Z.eqb_spec test_example k); [lia|]
         end.
  reflexivity.
Qed.

(** The paths of the examples: a part under the package, starting with a
    slash, after the package path. *)
Lemma test_case_known (test_example : Z) :
  (0 <= test_example <= 5)%Z ->
  exists (rest : string) (origin lookDir : Vector3),
    test_case home_dir test_example
    = (home_dir ++ String "/" rest, Some (origin, lookDir))
    /\ contains ".ply" (String "/" rest) = (4 <=? test_example)%Z
    /\ contains ".pcd" (String "/" rest) = negb (4 <=? test_example)%Z.
Proof.
  intros H.
  assert (Hcases : test_example = 0%Z \/ test_example = 1%Z \/ test_example = 2%Z
                   \/ test_example = 3%Z \/ test_example = 4%Z \/ test_example = 5%Z)
    by lia.
  destruct Hcases as [-> | [-> | [-> | [-> | [-> | ->]]]]];
    cbn [test_case Z.eqb Pos.eqb];
    eexists; eexists; eexists; (split; [reflexivity|]); split; reflexivity.
Qed.

End FromFileFacts.

(** X16: a test number outside 0..5 names no file: the run reports that
    the extension is not understood and stops there; no cloud is read, the
    engine is not called, nothing is published and the node is left as it
    was. *)
Theorem unknown_test_example_is_skipped
        (go : BlockFitter -> Result) (home_dir : string)
        (loadPLYFile loadPCDFile : string -> LabeledCloud)
        (this : RobotInterface) (test_example : Z) :
  (test_example < 0 \/ 5 < test_example)%Z ->
  processFromFile go home_dir loadPLYFile loadPCDFile this test_example
  = mkRun [(newline ++ "Processing test example " ++ to_string test_example ++ newline)%string;
           newline;
           ("extension not understood" ++ newline)%string]
          (Some (this, [])).
Proof.
  intros H. rewrite processFromFile_reader, (test_case_unknown home_dir test_example H).
  reflexivity.
Qed.

Lemma unknown_test_example_is_skipped_witness :
  outcome (processFromFile go_sample "/opt/plane_seg_ros" load_ply_stub load_pcd_stub
                           RobotInterface_new 6)
  = Some (RobotInterface_new, []).
Proof.
  rewrite (unknown_test_example_is_skipped go_sample "/opt/plane_seg_ros"
             load_ply_stub load_pcd_stub RobotInterface_new 6).
  - reflexivity.
  - right. lia.
Defined.

(** X17: which reader an example gets.  The extension is looked for
    anywhere in the whole path, ".ply" first: the examples 4 and 5 are
    always read as PLY; the examples 0 to 3 are read as PCD exactly when the
    path of the package has no ".ply" in it, and as PLY otherwise.  Either
    way the cycle runs on the cloud read, with the origin and the look
    direction of the example. *)
Theorem reader_of_a_test_example
        (go : BlockFitter -> Result) (home_dir : string)
        (loadPLYFile loadPCDFile : string -> LabeledCloud)
        (this : RobotInterface) (test_example : Z) :
  (0 <= test_example <= 5)%Z ->
  exists (inFile : string) (origin lookDir : Vector3),
    test_case home_dir test_example = (inFile, Some (origin, lookDir))
    /\ processFromFile go home_dir loadPLYFile loadPCDFile this test_example
       = if (4 <=? test_example)%Z || contains ".ply" home_dir then
           mkRun [(newline ++ "Processing test example " ++ to_string test_example
                           ++ newline)%string;
                  (inFile ++ newline)%string;
                  ("readply" ++ newline)%string]
                 (processCloud go this (loadPLYFile inFile) origin lookDir)
         else
           mkRun [(newline ++ "Processing test example " ++ to_string test_example
                           ++ newline)%string;
                  (inFile ++ newline)%string;
                  ("readpcd" ++ newline)%string]
                 (processCloud go this (loadPCDFile inFile) origin lookDir).
Proof.
  intros H.
  destruct (test_case_known home_dir test_example H)
    as (rest & origin & lookDir & Hcase & Hply & Hpcd).
  exists (home_dir ++ String "/" rest)%string, origin, lookDir.
  split; [exact Hcase|].
  rewrite processFromFile_reader, Hcase. cbn [fst snd bind].
  rewrite !contains_app by reflexivity. rewrite Hply, Hpcd.
  destruct (4 <=? test_example)%Z; cbn [negb orb].
  - rewrite orb_true_r. reflexivity.
  - rewrite !orb_false_r, orb_true_r.
    destruct (contains ".ply" home_dir); destruct (contains ".pcd" home_dir); reflexivity.
Qed.

Lemma reader_of_a_test_example_witness :
  exists (inFile : string) (origin lookDir : Vector3),
    test_case "/opt/maps.ply/plane_seg_ros" 0 = (inFile, Some (origin, lookDir))
    /\ processFromFile go_sample "/opt/maps.ply/plane_seg_ros" load_ply_stub load_pcd_stub
                       RobotInterface_new 0
       = mkRun [(newline ++ "Processing test example " ++ to_string 0 ++ newline)%string;
                (inFile ++ newline)%string;
                ("readply" ++ newline)%string]
               (processCloud go_sample RobotInterface_new (load_ply_stub inFile)
                             origin lookDir).
Proof.
  destruct (reader_of_a_test_example go_sample "/opt/maps.ply/plane_seg_ros"
              load_ply_stub load_pcd_stub RobotInterface_new 0)
    as (inFile & origin & lookDir & Hcase & Hrun).
  - lia.
  - exists inFile, origin, lookDir. split; [exact Hcase | exact Hrun].
Defined.

Section MainFacts.

Variable go : BlockFitter -> Result.
Variable home_dir : string.
Variable loadPLYFile : string -> LabeledCloud.
Variable loadPCDFile : string -> LabeledCloud.

Lemma processFromFile_leica_4 (this : RobotInterface) :
  outcome (processFromFile go home_dir loadPLYFile loadPCDFile this 4)
  = processCloud go this (loadPLYFile (leica_file_4 home_dir)) leica_origin leica_lookDir.
Proof.
  rewrite processFromFile_reader. cbn [test_case Z.eqb Pos.eqb fst snd].
  rewrite contains_app by reflexivity.
  replace (contains ".ply"
             "/data/leica/race_arenas/RACE_crossplaneramps_sub1cm_cropped_meshlab_icp.ply")
    with true by reflexivity.
  rewrite orb_true_r. reflexivity.
Qed.

Lemma processFromFile_leica_5 (this : RobotInterface) :
  outcome (processFromFile go home_dir loadPLYFile loadPCDFile this 5)
  = processCloud go this (loadPLYFile (leica_file_5 home_dir)) leica_origin leica_lookDir.
Proof.
  rewrite processFromFile_reader. cbn [test_case Z.eqb Pos.eqb fst snd].
  rewrite contains_app by reflexivity.
  replace (contains ".ply"
             "/data/leica/race_arenas/RACE_stepfield_sub1cm_cropped_meshlab_icp.ply")
    with true by reflexivity.
  rewrite orb_true_r. reflexivity.
Qed.

End MainFacts.

(** X18: the entry point.  With [run_test_program] set, the node runs the
    examples 4 and 5, in this order and both read as PLY, from the fresh
    node, and leaves with the result of example 5; the messages that wait
    are never dispatched.  Without it, the messages are dispatched from the
    fresh node. *)
Theorem main_runs_the_two_leica_examples
        (go : BlockFitter -> Result) (home_dir : string)
        (loadPLYFile loadPCDFile : string -> LabeledCloud)
        (GridMap : Type) (toPointCloud : GridMap -> LabeledCloud)
        (queue : list (Message GridMap)) :
  (forall fitter, hulls_nonempty (go fitter)) ->
  let fitter4 :=
    fitter_for (loadPLYFile (leica_file_4 home_dir)) leica_origin leica_lookDir in
  let fitter5 :=
    fitter_for (loadPLYFile (leica_file_5 home_dir)) leica_origin leica_lookDir in
  (exists trace : list Event,
      outcome (main go home_dir loadPLYFile loadPCDFile true toPointCloud queue)
      = Some (mkRobotInterface Isometry3_Identity (go fitter5), trace)
      /\ fitters trace = [fitter4; fitter5])
  /\ outcome (main go home_dir loadPLYFile loadPCDFile false toPointCloud queue)
     = spin go toPointCloud RobotInterface_new queue.
Proof.
  intros Hgo fitter4 fitter5. split; [|reflexivity].
  unfold main. cbn [outcome]. unfold then_run.
  rewrite processFromFile_leica_4.
  destruct (processCloud_runs go RobotInterface_new (loadPLYFile (leica_file_4 home_dir))
              leica_origin leica_lookDir (Hgo _)) as (published4 & Hrun4 & Hnone4).
  rewrite Hrun4. cbn [outcome]. rewrite processFromFile_leica_5.
  destruct (processCloud_runs go
              (mkRobotInterface (last_robot_pose_ RobotInterface_new)
                 (go (fitter_for (loadPLYFile (leica_file_4 home_dir))
                                 leica_origin leica_lookDir)))
              (loadPLYFile (leica_file_5 home_dir))
              leica_origin leica_lookDir (Hgo _)) as (published5 & Hrun5 & Hnone5).
  rewrite Hrun5. cbn [bind fst snd last_robot_pose_ RobotInterface_new].
  eexists. split; [reflexivity|].
  rewrite !fitters_app, Hnone4, Hnone5. reflexivity.
Qed.

Lemma main_runs_the_two_leica_examples_witness :
  exists trace : list Event,
    outcome (main go_sample "/opt/plane_seg_ros" load_ply_stub load_pcd_stub true
                  toPointCloud_id [point_cloud_in LabeledCloud []])
    = Some (mkRobotInterface Isometry3_Identity (mkResult [sample_block]), trace)
    /\ List.length (fitters trace) = 2%nat.
Proof.
  destruct (proj1 (main_runs_the_two_leica_examples
                     go_sample "/opt/plane_seg_ros" load_ply_stub load_pcd_stub
                     LabeledCloud toPointCloud_id [point_cloud_in LabeledCloud []]
                     ltac:(intros fitter; repeat constructor; discriminate)))
    as (trace & Hrun & Hfit).
  exists trace. split; [exact Hrun|]. now rewrite Hfit.
Defined.

Section JsonEnd.

Variable vecToStr : Vector3 -> string.
Variable rotToStr : Matrix3 -> string.
Variable float_to_string : scalar -> string.

Local Open Scope string_scope.

Lemma ends_app (a b suffix : string) :
  (exists body : string, b = body ++ suffix) ->
  exists body : string, a ++ b = body ++ suffix.
Proof. intros [body ->]. exists (a ++ body). now rewrite append_assoc. Qed.

Lemma json_block_ends (i : nat) (block : Block) :
  exists body : string,
    json_block vecToStr rotToStr float_to_string i block = body ++ "    }," ++ newline.
Proof.
  unfold json_block. cbv zeta.
  repeat first [ exact (ex_intro _ "" eq_refl) | apply ends_app ].
Qed.

Lemma join_ends (suffix : string) (pieces : list string) :
  pieces <> [] ->
  Forall (fun piece => exists body : string, piece = body ++ suffix) pieces ->
  exists body : string, join pieces = body ++ suffix.
Proof.
  induction pieces as [|piece rest IH]; intros Hne Hall; [contradiction|].
  inversion Hall as [|? ? Hpiece Hrest]; subst.
  destruct rest as [|next rest].
  - cbn [join fold_right]. rewrite append_empty_r. exact Hpiece.
  - change (join (piece :: next :: rest)) with (piece ++ join (next :: rest)).
    apply ends_app, IH; [discriminate | exact Hrest].
Qed.

Lemma json_blocks_from_end (blocks : list Block) :
  forall i : nat,
    Forall (fun piece => exists body : string, piece = body ++ "    }," ++ newline)
           (json_blocks_from vecToStr rotToStr float_to_string i blocks).
Proof.
  induction blocks as [|block rest IH]; intros i; cbn [json_blocks_from]; constructor.
  - apply json_block_ends.
  - apply IH.
Qed.

Lemma printResultAsJson_end (this : RobotInterface) :
  (mBlocks (result_ this) = [] ->
   printResultAsJson vecToStr rotToStr float_to_string this = newline)
  /\ (mBlocks (result_ this) <> [] ->
      exists body : string,
        printResultAsJson vecToStr rotToStr float_to_string this
        = body ++ "    }," ++ newline ++ newline).
Proof.
  unfold printResultAsJson. split.
  - intros ->. reflexivity.
  - intros Hne. rewrite json_loop_join.
    destruct (join_ends ("    }," ++ newline)
                (json_blocks_from vecToStr rotToStr float_to_string 0
                                  (mBlocks (result_ this)))) as [body Hbody].
    + destruct (mBlocks (result_ this)); [contradiction | discriminate].
    + apply json_blocks_from_end.
    + exists body. cbn [String.append]. rewrite Hbody, !append_assoc. reflexivity.
Qed.

End JsonEnd.

(** X19: the dump of a result without blocks is a single newline; the dump
    of any other result ends with the closing brace of the last block, a
    comma and two newlines: every entry, the last one too, is followed by a
    comma, and nothing encloses the entries. *)
Theorem dump_ends_with_a_trailing_comma
        (vecToStr : Vector3 -> string) (rotToStr : Matrix3 -> string)
        (float_to_string : scalar -> string) (this : RobotInterface) :
  (mBlocks (result_ this) = [] ->
   printResultAsJson vecToStr rotToStr float_to_string this = newline)
  /\ (mBlocks (result_ this) <> [] ->
      exists body : string,
        printResultAsJson vecToStr rotToStr float_to_string this
        = (body ++ "    }," ++ newline ++ newline)%string).
Proof. exact (printResultAsJson_end vecToStr rotToStr float_to_string this). Qed.

Lemma dump_ends_with_a_trailing_comma_witness :
  exists body : string,
    printResultAsJson (@no_text Vector3) (@no_text Matrix3) (@no_text scalar)
                      (mkRobotInterface Isometry3_Identity (mkResult [sample_block]))
    = (body ++ "    }," ++ newline ++ newline)%string.
Proof.
  apply (proj2 (dump_ends_with_a_trailing_comma
                  (@no_text Vector3) (@no_text Matrix3) (@no_text scalar)
                  (mkRobotInterface Isometry3_Identity (mkResult [sample_block])))).
  discriminate.
Defined.
